(** * Banana Slides: the project-creation screen (frontend/src/pages/Home.tsx)

    A shallow embedding of the event handlers of the [Home] component and
    of the part of the JavaScript run time they rely on (strings as UTF-16
    code units, truthiness, [String.prototype.trim], exceptions and
    [try]/[catch]/[finally]), followed by the properties of the
    creation-submission workflow.

    The handlers are [async] functions; every [await] is on a call to a
    collaborator (the template catalog, [fetch], the project store).  The
    collaborators are given by a [World] of oracles, a handler runs to
    completion before the next one starts (but for the catalog load of the
    mount effect, whose call can stay pending while the user acts), and
    everything a handler does to the outside (toasts, console output,
    network calls, navigation) is recorded, in order, in a trace of
    events. *)

From Stdlib Require Import NArith Ascii String Lia.
From stdpp Require Import base option list countable gmap.

Set Default Proof Using "Type".
Local Open Scope N_scope.

(* ===================================================================== *)
(** ** JavaScript strings *)
(* ===================================================================== *)

(** A JavaScript string is a sequence of UTF-16 code units. *)
Abbreviation jsstring := (list N).

(** An ASCII literal of the source as a sequence of code units. *)
Fixpoint lit (s : string) : jsstring :=
  match s with
  | EmptyString => []
  | String c r => N_of_ascii c :: lit r
  end.
Arguments lit : simpl never.

(** ECMAScript [WhiteSpace] and [LineTerminator] code points: the
    characters that [String.prototype.trim] strips. *)
Definition isWhiteSpace (c : N) : bool :=
  (c =? 0x0009) || (c =? 0x000A) || (c =? 0x000B) || (c =? 0x000C) ||
  (c =? 0x000D) || (c =? 0x0020) || (c =? 0x00A0) || (c =? 0x1680) ||
  ((0x2000 <=? c) && (c <=? 0x200A)) ||
  (c =? 0x2028) || (c =? 0x2029) || (c =? 0x202F) || (c =? 0x205F) ||
  (c =? 0x3000) || (c =? 0xFEFF).

Fixpoint trimStart (s : jsstring) : jsstring :=
  match s with
  | [] => []
  | c :: r => if isWhiteSpace c then trimStart r else s
  end.

Definition trimEnd (s : jsstring) : jsstring := rev (trimStart (rev s)).

(** [s.trim()] *)
Definition trim (s : jsstring) : jsstring := trimEnd (trimStart s).

(** Truthiness of a string value and of a nullable string ([null] and the
    empty string are falsy, every other string is truthy). *)
Definition truthy (s : jsstring) : bool :=
  match s with [] => false | _ :: _ => true end.

Definition truthy_opt (o : option jsstring) : bool :=
  match o with Some s => truthy s | None => false end.

(** [a || b] on a nullable string with a string default. *)
Definition or_else (o : option jsstring) (d : jsstring) : jsstring :=
  match o with
  | Some s => if truthy s then s else d
  | None => d
  end.

(* ===================================================================== *)
(** ** Data model *)
(* ===================================================================== *)

(** [type CreationType = 'idea' | 'outline' | 'description'] *)
Inductive CreationType := idea | outline | description.

(** Binary payload of a response body. *)
Record Blob := mkBlob {
  blob_bytes : list Byte.byte;
  blob_type : jsstring
}.

(** [new File([blob], name, { type })]: the bytes, a name and a type. *)
Record File := mkFile {
  file_bits : list Byte.byte;
  file_name : jsstring;
  file_type : jsstring
}.

(** Modelled from the spec: the type [UserTemplate] is declared in
    api/endpoints, which is not part of Home.tsx; the spec's
    SavedTemplateRecord is [{ id, name, imageUrl }], and the component reads
    the fields [template_id], [name] (optional) and [template_image_url]. *)
Record UserTemplate := mkUserTemplate {
  template_id : jsstring;
  name : option jsstring;
  template_image_url : jsstring
}.

(** A thrown value on which a property can be read (an [Error], any other
    object, or a primitive); only its [message] is ever read, and only to
    be shown: [message] is what [error.message] yields as text, [None] when
    it is missing or falsy. *)
Record JsError := mkError {
  message : option jsstring
}.

(** A thrown value ([error: any]): any value can be thrown, [null] and
    [undefined] included, and on these two every property read fails. *)
Inductive JsValue :=
  | js_null
  | js_undefined
  | js_object (e : JsError).
Coercion js_object : JsError >-> JsValue.

(** The [type] of a toast: ['success'] or ['error']. *)
Inductive ToastType := toast_success | toast_error.

(** The argument of [show]. *)
Record Toast := mkToast {
  toast_message : jsstring;
  toast_type : ToastType
}.

(** The component's state: one field per [useState]. *)
Record HomeState := mkHome {
  activeTab : CreationType;
  content : jsstring;
  selectedTemplate : option File;
  selectedTemplateId : option jsstring;
  userTemplates : list UserTemplate;
  isLoadingTemplates : bool
}.

(** The state of the first render. *)
Definition initialState : HomeState :=
  {| activeTab := idea;
     content := [];
     selectedTemplate := None;
     selectedTemplateId := None;
     userTemplates := [];
     isLoadingTemplates := false |}.

(** [localStorage] *)
Abbreviation Storage := (gmap (list N) (list N)).

(** How a call ends: it returns a value or throws. *)
Inductive Completion (A : Type) :=
  | Returns (a : A)
  | Throws (e : JsValue).
Arguments Returns {A} a.
Arguments Throws {A} e.

(** A [Response] of [fetch]; reading its body with [blob()] can fail. *)
Record Response := mkResponse {
  response_blob : Completion Blob
}.

(** The collaborators of the component.  [getImageUrl] (api/client) is a
    pure mapping from an image reference to a URL; [initializeProject] (the
    project store) leaves its result in [localStorage]: the storage it
    returns with, and, when it throws, the storage that it has left by then
    ([initializeProject_leaves]; the store may have written before it
    failed). *)
Record World := mkWorld {
  getImageUrl : jsstring -> jsstring;
  fetch : jsstring -> Completion Response;
  listUserTemplates : Completion (option (list UserTemplate));
  uploadUserTemplate : File -> Completion (option UserTemplate);
  initializeProject :
    CreationType -> jsstring -> option File -> Storage -> Completion Storage;
  initializeProject_leaves :
    CreationType -> jsstring -> option File -> Storage -> Storage
}.

(** What a handler does to the outside, with the answer it got. *)
Inductive Event :=
  | EvShow (t : Toast)
  | EvConsoleError (label : jsstring) (e : JsValue)
  | EvConsoleWarn (label : jsstring) (e : JsValue)
  | EvListUserTemplates (r : Completion (option (list UserTemplate)))
  | EvUploadUserTemplate (f : File) (r : Completion (option UserTemplate))
  | EvFetch (url : jsstring) (r : Completion Response)
  | EvBlob (r : Completion Blob)
  | EvInitializeProject (ty : CreationType) (c : jsstring)
      (templateFile : option File) (r : Completion Storage)
  | EvNavigate (path : jsstring).

(* ===================================================================== *)
(** ** Handlers as computations: state, trace and exceptions *)
(* ===================================================================== *)

(** What a running handler can read and change: the component's state
    (through the setters of [useState]), [localStorage] and the trace. *)
Record Sigma := mkSigma {
  home : HomeState;
  localStorage : Storage;
  events : list Event
}.

Definition M (A : Type) : Type := Sigma -> Completion A * Sigma.

Definition ret {A} (a : A) : M A := fun σ => (Returns a, σ).

Definition bind {A B} (m : M A) (k : A -> M B) : M B :=
  fun σ =>
    match m σ with
    | (Returns a, σ') => k a σ'
    | (Throws e, σ') => (Throws e, σ')
    end.

(** [try { m } catch (error) { h error }] *)
Definition try_catch {A} (m : M A) (h : JsValue -> M A) : M A :=
  fun σ =>
    match m σ with
    | (Returns a, σ') => (Returns a, σ')
    | (Throws e, σ') => h e σ'
    end.

(** [try { m } finally { f }] *)
Definition try_finally {A} (m : M A) (f : M unit) : M A :=
  fun σ =>
    let '(r, σ') := m σ in
    match f σ' with
    | (Returns _, σ'') => (r, σ'')
    | (Throws e, σ'') => (Throws e, σ'')
    end.

(** [M] with stdpp's monad notation: [x ← m; k] runs [m], binds its value
    to [x] and goes on with [k]; [m;; k] drops the value. *)
#[global] Instance M_ret : MRet M := @ret.
#[global] Instance M_bind : MBind M := fun A B k m => bind m k.

(** [throw e] *)
Definition throw {A} (e : JsValue) : M A := fun σ => (Throws e, σ).

(** The result of an awaited call: its value, or its exception. *)
Definition await {A} (r : Completion A) : M A := fun σ => (r, σ).

Definition emit (ev : Event) : M unit :=
  fun σ =>
    (Returns tt,
     {| home := home σ; localStorage := localStorage σ;
        events := events σ ++ [ev] |}).

Definition setState (f : HomeState -> HomeState) : M unit :=
  fun σ =>
    (Returns tt,
     {| home := f (home σ); localStorage := localStorage σ;
        events := events σ |}).

(** The setters of the [useState] hooks. *)
Definition setActiveTab (v : CreationType) : M unit :=
  setState (fun h =>
    {| activeTab := v; content := content h;
       selectedTemplate := selectedTemplate h;
       selectedTemplateId := selectedTemplateId h;
       userTemplates := userTemplates h;
       isLoadingTemplates := isLoadingTemplates h |}).

Definition setContent (v : jsstring) : M unit :=
  setState (fun h =>
    {| activeTab := activeTab h; content := v;
       selectedTemplate := selectedTemplate h;
       selectedTemplateId := selectedTemplateId h;
       userTemplates := userTemplates h;
       isLoadingTemplates := isLoadingTemplates h |}).

Definition setSelectedTemplate (v : option File) : M unit :=
  setState (fun h =>
    {| activeTab := activeTab h; content := content h;
       selectedTemplate := v;
       selectedTemplateId := selectedTemplateId h;
       userTemplates := userTemplates h;
       isLoadingTemplates := isLoadingTemplates h |}).

Definition setSelectedTemplateId (v : option jsstring) : M unit :=
  setState (fun h =>
    {| activeTab := activeTab h; content := content h;
       selectedTemplate := selectedTemplate h;
       selectedTemplateId := v;
       userTemplates := userTemplates h;
       isLoadingTemplates := isLoadingTemplates h |}).

(** [setUserTemplates] takes an updater ([prev => ...]); a plain value [v]
    is the updater [fun _ => v]. *)
Definition setUserTemplates
    (f : list UserTemplate -> list UserTemplate) : M unit :=
  setState (fun h =>
    {| activeTab := activeTab h; content := content h;
       selectedTemplate := selectedTemplate h;
       selectedTemplateId := selectedTemplateId h;
       userTemplates := f (userTemplates h);
       isLoadingTemplates := isLoadingTemplates h |}).

Definition setIsLoadingTemplates (v : bool) : M unit :=
  setState (fun h =>
    {| activeTab := activeTab h; content := content h;
       selectedTemplate := selectedTemplate h;
       selectedTemplateId := selectedTemplateId h;
       userTemplates := userTemplates h;
       isLoadingTemplates := v |}).

(** Calls to the outside. *)
Definition show (t : Toast) : M unit := emit (EvShow t).
Definition console_error (label : jsstring) (e : JsValue) : M unit :=
  emit (EvConsoleError label e).
Definition console_warn (label : jsstring) (e : JsValue) : M unit :=
  emit (EvConsoleWarn label e).
Definition navigate (path : jsstring) : M unit := emit (EvNavigate path).

Definition api_listUserTemplates (w : World)
    : M (option (list UserTemplate)) :=
  let r := listUserTemplates w in
  emit (EvListUserTemplates r);; await r.

Definition api_uploadUserTemplate (w : World) (f : File)
    : M (option UserTemplate) :=
  let r := uploadUserTemplate w f in
  emit (EvUploadUserTemplate f r);; await r.

Definition js_fetch (w : World) (url : jsstring) : M Response :=
  let r := fetch w url in
  emit (EvFetch url r);; await r.

(** [await response.blob()] *)
Definition read_blob (response : Response) : M Blob :=
  let r := response_blob response in
  emit (EvBlob r);; await r.

(** [await initializeProject(type, content, templateFile)]: the store has
    written [localStorage] by the time it returns or throws. *)
Definition store_initializeProject (w : World) (ty : CreationType)
    (c : jsstring) (templateFile : option File) : M unit :=
  fun σ =>
    let r := initializeProject w ty c templateFile (localStorage σ) in
    let tr := events σ ++ [EvInitializeProject ty c templateFile r] in
    match r with
    | Returns ls =>
        (Returns tt, {| home := home σ; localStorage := ls; events := tr |})
    | Throws e =>
        (Throws e,
         {| home := home σ;
            localStorage :=
              initializeProject_leaves w ty c templateFile (localStorage σ);
            events := tr |})
    end.

(** The [TypeError] of the run time for a property read on [null] or
    [undefined] (the text of its message is the engine's; here V8's). *)
Definition type_error (what : string) : JsValue :=
  js_object
    {| message :=
         Some (lit "Cannot read properties of " ++ lit what ++
               lit " (reading 'message')") |}.

(** [error.message] *)
Definition read_message (error : JsValue) : M (option jsstring) :=
  match error with
  | js_object e => ret (message e)
  | js_null => throw (type_error "null")
  | js_undefined => throw (type_error "undefined")
  end.

(** [localStorage.getItem(key)] *)
Definition getItem (key : jsstring) : M (option jsstring) :=
  fun σ => (Returns (localStorage σ !! key), σ).

(** A nullable string inside a template literal. *)
Definition interpolate (o : option jsstring) : jsstring :=
  match o with Some s => s | None => lit "null" end.

(** The literals of the messages, as code units. *)
Definition msg_enter_content : jsstring :=
  [0x8BF7; 0x8F93; 0x5165; 0x5185; 0x5BB9].
Definition msg_upload_ok : jsstring :=
  [0x6A21; 0x677F; 0x4E0A; 0x4F20; 0x6210; 0x529F].
Definition msg_upload_failed : jsstring :=
  [0x6A21; 0x677F; 0x4E0A; 0x4F20; 0x5931; 0x8D25; 0x003A; 0x0020].
Definition msg_unknown_error : jsstring :=
  [0x672A; 0x77E5; 0x9519; 0x8BEF].
Definition msg_create_failed : jsstring :=
  [0x9879; 0x76EE; 0x521B; 0x5EFA; 0x5931; 0x8D25].
Definition log_load_failed : jsstring :=
  [0x52A0; 0x8F7D; 0x7528; 0x6237; 0x6A21; 0x677F; 0x5931; 0x8D25; 0x003A].
Definition log_upload_failed : jsstring :=
  [0x4E0A; 0x4F20; 0x6A21; 0x677F; 0x5931; 0x8D25; 0x003A].
Definition log_fetch_failed : jsstring :=
  [0x83B7; 0x53D6; 0x6A21; 0x677F; 0x6587; 0x4EF6; 0x5931; 0x8D25; 0x003A].
Definition log_create_failed : jsstring :=
  [0x521B; 0x5EFA; 0x9879; 0x76EE; 0x5931; 0x8D25; 0x003A].

(* ===================================================================== *)
(** ** The handlers of Home.tsx *)
(* ===================================================================== *)

(** Every handler is a closure of one render: it reads the state [s] of
    that render, and changes the component only through the setters. *)

(** [loadUserTemplates] (lines 56-69), run once by [useEffect]. *)
Definition loadUserTemplates (w : World) : M unit :=
  setIsLoadingTemplates true;;
  try_finally
    (try_catch
       (response ← api_listUserTemplates w;
        match response with
        | Some templates => setUserTemplates (fun _ => templates)
        | None => ret tt
        end)
       (fun error => console_error log_load_failed error))
    (setIsLoadingTemplates false).

(** [loadUserTemplates] in two halves, for a session in which the user
    acts while the catalog call is pending: what runs up to the [await] of
    line 59, and what runs when the call answers. *)
Definition loadUserTemplates_begin : M unit :=
  setIsLoadingTemplates true.

Definition loadUserTemplates_resume (w : World) : M unit :=
  try_finally
    (try_catch
       (response ← api_listUserTemplates w;
        match response with
        | Some templates => setUserTemplates (fun _ => templates)
        | None => ret tt
        end)
       (fun error => console_error log_load_failed error))
    (setIsLoadingTemplates false).

(** [handleTemplateUpload] (lines 71-89); [file] is [e.target.files?.[0]]. *)
Definition handleTemplateUpload (w : World) (file : option File) : M unit :=
  match file with
  | Some file =>
      try_catch
        (response ← api_uploadUserTemplate w file;
         match response with
         | Some template =>
             setUserTemplates (fun prev => template :: prev);;
             setSelectedTemplateId (Some (template_id template));;
             setSelectedTemplate None;;
             show {| toast_message := msg_upload_ok; toast_type := toast_success |}
         | None => ret tt
         end)
        (fun error =>
           console_error log_upload_failed error;;
           error_message ← read_message error;
           show {| toast_message :=
                     msg_upload_failed ++
                     or_else error_message msg_unknown_error;
                   toast_type := toast_error |})
  | None => ret tt
  end.

(** [handleSelectUserTemplate] (lines 91-94). *)
Definition handleSelectUserTemplate (template : UserTemplate) : M unit :=
  setSelectedTemplateId (Some (template_id template));;
  setSelectedTemplate None.

(** [handleRemoveTemplate] (lines 96-99). *)
Definition handleRemoveTemplate : M unit :=
  setSelectedTemplateId None;;
  setSelectedTemplate None.

(** [handleSubmit] (lines 101-148). *)
Definition handleSubmit (w : World) (s : HomeState) : M unit :=
  if negb (truthy (trim (content s))) then
    show {| toast_message := msg_enter_content; toast_type := toast_error |}
  else
    try_catch
      (templateFile ←
         (let templateFile := selectedTemplate s in
          if truthy_opt (selectedTemplateId s) && negb (bool_decide (is_Some templateFile))
          then
            try_catch
              (match
                 List.find
                   (fun t => bool_decide (Some (template_id t) = selectedTemplateId s))
                   (userTemplates s)
               with
               | Some template =>
                   let imageUrl := getImageUrl w (template_image_url template) in
                   response ← js_fetch w imageUrl;
                   blob ← read_blob response;
                   ret (Some {| file_bits := blob_bytes blob;
                                file_name := lit "template.png";
                                file_type := blob_type blob |})
               | None => ret templateFile
               end)
              (fun error =>
                 console_warn log_fetch_failed error;;
                 ret templateFile)
          else ret templateFile);
       store_initializeProject w (activeTab s) (content s) templateFile;;
       projectId ← getItem (lit "currentProjectId");
       if negb (truthy_opt projectId) then
         show {| toast_message := msg_create_failed; toast_type := toast_error |}
       else
         match activeTab s with
         | idea | outline =>
             navigate (lit "/project/" ++ interpolate projectId ++ lit "/outline")
         | description =>
             navigate (lit "/project/" ++ interpolate projectId ++ lit "/detail")
         end)
      (fun error => console_error log_create_failed error).

(** ** The screen as a transition system *)

(** What the user (or React) can do to the mounted component.  The effect
    of line 31 comes twice: as [Mount], when the catalog answers before the
    user does anything, and as [MountPending] followed, any number of
    actions later, by [CatalogAnswers]. *)
Inductive Action :=
  | Mount                                      (* [useEffect]: load the catalog *)
  | ClickTab (ty : CreationType)               (* [setActiveTab(type)] *)
  | EditContent (c : jsstring)                 (* [setContent(e.target.value)] *)
  | PickFile (file : option File)              (* the file input's [onChange] *)
  | ClickTemplate (template : UserTemplate)    (* a card of "my templates" *)
  | ClickRemove                                (* "cancel selection" *)
  | ClickSubmit
  | ClickHistory                               (* line 162: the history button *)
  | MountPending                               (* [useEffect], up to the [await] *)
  | CatalogAnswers.                            (* the pending call answers *)

Definition handler (w : World) (a : Action) (s : HomeState) : M unit :=
  match a with
  | Mount => loadUserTemplates w
  | ClickTab ty => setActiveTab ty
  | EditContent c => setContent c
  | PickFile file => handleTemplateUpload w file
  | ClickTemplate template => handleSelectUserTemplate template
  | ClickRemove => handleRemoveTemplate
  | ClickSubmit => handleSubmit w s
  | ClickHistory => navigate (lit "/history")
  | MountPending => loadUserTemplates_begin
  | CatalogAnswers => loadUserTemplates_resume w
  end.

(** One action, in the world [w] of that moment: the handler of the current
    render runs to completion. *)
Definition step (σ : Sigma) (wa : World * Action) : Sigma :=
  snd (handler wa.1 wa.2 (home σ) σ).

(** A session: actions in order, each with the world that answers it. *)
Definition run (σ : Sigma) (was : list (World * Action)) : Sigma :=
  fold_left step was σ.

(** A freshly mounted component over a given [localStorage]. *)
Definition boot (ls : Storage) : Sigma :=
  {| home := initialState; localStorage := ls; events := [] |}.

(** One handler alone, from the state [s] and storage [ls], with an empty
    trace: how it completes, and what it leaves behind. *)
Definition exec {A} (m : M A) (s : HomeState) (ls : Storage)
    : Completion A * Sigma :=
  m {| home := s; localStorage := ls; events := [] |}.

(** The paths passed to [navigate], and the calls of the Project Service,
    in a trace. *)
Definition navigations (tr : list Event) : list jsstring :=
  omap (fun ev => match ev with EvNavigate p => Some p | _ => None end) tr.

Definition initializations (tr : list Event)
    : list (CreationType * jsstring * option File * Completion Storage) :=
  omap (fun ev =>
          match ev with
          | EvInitializeProject ty c tf r => Some (ty, c, tf, r)
          | _ => None
          end) tr.

Definition fetches (tr : list Event) : list (jsstring * Completion Response) :=
  omap (fun ev => match ev with EvFetch u r => Some (u, r) | _ => None end) tr.

Definition toasts (tr : list Event) : list Toast :=
  omap (fun ev => match ev with EvShow t => Some t | _ => None end) tr.

(** The two stages of a submission whose content is valid, named so that
    they can be reasoned about one at a time: lines 109-128 and lines
    130-143 of [handleSubmit] ([handleSubmit_stages] below shows that
    [handleSubmit] is made of exactly these). *)
Definition resolveTemplate (w : World) (s : HomeState) : M (option File) :=
  let templateFile := selectedTemplate s in
  if truthy_opt (selectedTemplateId s) && negb (bool_decide (is_Some templateFile))
  then
    try_catch
      (match
         List.find
           (fun t => bool_decide (Some (template_id t) = selectedTemplateId s))
           (userTemplates s)
       with
       | Some template =>
           let imageUrl := getImageUrl w (template_image_url template) in
           response ← js_fetch w imageUrl;
           blob ← read_blob response;
           ret (Some {| file_bits := blob_bytes blob;
                        file_name := lit "template.png";
                        file_type := blob_type blob |})
       | None => ret templateFile
       end)
      (fun error =>
         console_warn log_fetch_failed error;;
         ret templateFile)
  else ret templateFile.

Definition createAndRoute (w : World) (s : HomeState)
    (templateFile : option File) : M unit :=
  store_initializeProject w (activeTab s) (content s) templateFile;;
  projectId ← getItem (lit "currentProjectId");
  if negb (truthy_opt projectId) then
    show {| toast_message := msg_create_failed; toast_type := toast_error |}
  else
    match activeTab s with
    | idea | outline =>
        navigate (lit "/project/" ++ interpolate projectId ++ lit "/outline")
    | description =>
        navigate (lit "/project/" ++ interpolate projectId ++ lit "/detail")
    end.

(** The routing table in the spec's words: [/project/{id}/outline] for
    the types [idea] and [outline], [/project/{id}/detail] for the type
    [description]. *)
Definition spec_route (ty : CreationType) (id : jsstring) : jsstring :=
  match ty with
  | idea => lit "/project/" ++ id ++ lit "/outline"
  | outline => lit "/project/" ++ id ++ lit "/outline"
  | description => lit "/project/" ++ id ++ lit "/detail"
  end.

(** The toasts of the screen. *)
Definition toast_enter_content : Toast :=
  {| toast_message := msg_enter_content; toast_type := toast_error |}.
Definition toast_create_failed : Toast :=
  {| toast_message := msg_create_failed; toast_type := toast_error |}.
Definition toast_upload_ok : Toast :=
  {| toast_message := msg_upload_ok; toast_type := toast_success |}.
Definition toast_upload_failed (e : JsError) : Toast :=
  {| toast_message := msg_upload_failed ++ or_else (message e) msg_unknown_error;
     toast_type := toast_error |}.

(** What a rejected upload adds to the trace: the call, the log of the
    catch and, unless reading the message of the thrown value fails, the
    error toast. *)
Definition rejected_upload (f : File) (v : JsValue) : list Event :=
  EvUploadUserTemplate f (Throws v) ::
  EvConsoleError log_upload_failed v ::
  match v with
  | js_object e => [EvShow (toast_upload_failed e)]
  | js_null | js_undefined => []
  end.

(** The asset that [handleSubmit] builds from a fetched body. *)
Definition asset_of_blob (b : Blob) : File :=
  {| file_bits := blob_bytes b;
     file_name := lit "template.png";
     file_type := blob_type b |}.

(** [σ] with the events [tr] added to its trace. *)
Definition logged (σ : Sigma) (tr : list Event) : Sigma :=
  {| home := home σ; localStorage := localStorage σ;
     events := events σ ++ tr |}.

(* ===================================================================== *)
(** ** What the handlers do, as relations *)
(* ===================================================================== *)

(** What template resolution (lines 109-128) does, case by case: the
    template file it ends with and the events it adds. *)
Inductive Resolution (w : World) (s : HomeState)
    : option File -> list Event -> Prop :=
  | resolution_skipped :
      truthy_opt (selectedTemplateId s)
        && negb (bool_decide (is_Some (selectedTemplate s))) = false ->
      Resolution w s (selectedTemplate s) []
  | resolution_not_found :
      truthy_opt (selectedTemplateId s) = true ->
      selectedTemplate s = None ->
      List.find (fun t => bool_decide (Some (template_id t) = selectedTemplateId s))
        (userTemplates s) = None ->
      Resolution w s None []
  | resolution_fetch_failed t e :
      truthy_opt (selectedTemplateId s) = true ->
      selectedTemplate s = None ->
      List.find (fun t => bool_decide (Some (template_id t) = selectedTemplateId s))
        (userTemplates s) = Some t ->
      fetch w (getImageUrl w (template_image_url t)) = Throws e ->
      Resolution w s None
        [EvFetch (getImageUrl w (template_image_url t)) (Throws e);
         EvConsoleWarn log_fetch_failed e]
  | resolution_read_failed t resp e :
      truthy_opt (selectedTemplateId s) = true ->
      selectedTemplate s = None ->
      List.find (fun t => bool_decide (Some (template_id t) = selectedTemplateId s))
        (userTemplates s) = Some t ->
      fetch w (getImageUrl w (template_image_url t)) = Returns resp ->
      response_blob resp = Throws e ->
      Resolution w s None
        [EvFetch (getImageUrl w (template_image_url t)) (Returns resp);
         EvBlob (Throws e);
         EvConsoleWarn log_fetch_failed e]
  | resolution_fetched t resp b :
      truthy_opt (selectedTemplateId s) = true ->
      selectedTemplate s = None ->
      List.find (fun t => bool_decide (Some (template_id t) = selectedTemplateId s))
        (userTemplates s) = Some t ->
      fetch w (getImageUrl w (template_image_url t)) = Returns resp ->
      response_blob resp = Returns b ->
      Resolution w s (Some (asset_of_blob b))
        [EvFetch (getImageUrl w (template_image_url t)) (Returns resp);
         EvBlob (Returns b)].

(** What project creation and routing (lines 130-143) do from the storage
    [ls]: how the block completes, the storage it leaves and the events it
    adds. *)
Inductive Routing (w : World) (s : HomeState) (tf : option File) (ls : Storage)
    : Completion unit -> Storage -> list Event -> Prop :=
  | routing_init_failed e :
      initializeProject w (activeTab s) (content s) tf ls = Throws e ->
      Routing w s tf ls (Throws e)
        (initializeProject_leaves w (activeTab s) (content s) tf ls)
        [EvInitializeProject (activeTab s) (content s) tf (Throws e)]
  | routing_id_missing ls' :
      initializeProject w (activeTab s) (content s) tf ls = Returns ls' ->
      truthy_opt (ls' !! lit "currentProjectId") = false ->
      Routing w s tf ls (Returns tt) ls'
        [EvInitializeProject (activeTab s) (content s) tf (Returns ls');
         EvShow toast_create_failed]
  | routing_navigated ls' id :
      initializeProject w (activeTab s) (content s) tf ls = Returns ls' ->
      ls' !! lit "currentProjectId" = Some id ->
      truthy id = true ->
      Routing w s tf ls (Returns tt) ls'
        [EvInitializeProject (activeTab s) (content s) tf (Returns ls');
         EvNavigate (spec_route (activeTab s) id)].

(** What the outer [catch] of [handleSubmit] (lines 144-147) adds. *)
Definition caught (c : Completion unit) : list Event :=
  match c with
  | Returns _ => []
  | Throws e => [EvConsoleError log_create_failed e]
  end.

(** A whole submission: what [handleSubmit] does in the world [w], as a
    closure of the render with state [s], from the storage [ls]. *)
Inductive Submission (w : World) (s : HomeState) (ls : Storage)
    : Storage -> list Event -> Prop :=
  | submission_rejected :
      trim (content s) = [] ->
      Submission w s ls ls [EvShow toast_enter_content]
  | submission_accepted tf tr1 c ls' tr2 :
      trim (content s) <> [] ->
      Resolution w s tf tr1 ->
      Routing w s tf ls c ls' tr2 ->
      Submission w s ls ls' (tr1 ++ tr2 ++ caught c).

(** ** Reading the spec's words *)

(** Materializing the saved template selected in [s] fails: its record is
    not in the snapshot, or fetching its image throws, or reading the body
    throws. *)
Definition materialization_fails (w : World) (s : HomeState) : Prop :=
  match
    List.find (fun t => bool_decide (Some (template_id t) = selectedTemplateId s))
      (userTemplates s)
  with
  | None => True
  | Some t =>
      match fetch w (getImageUrl w (template_image_url t)) with
      | Throws _ => True
      | Returns resp =>
          match response_blob resp with
          | Throws _ => True
          | Returns _ => False
          end
      end
  end.

(** The extension of a file name or URL: what follows its last dot. *)
Fixpoint extension (s : jsstring) : jsstring :=
  match s with
  | [] => []
  | c :: r =>
      if (c =? 0x2E) && negb (existsb (N.eqb 0x2E) r) then r else extension r
  end.

(** The file name of the asset in the spec's words: [template.<ext>], with
    the extension of the image. *)
Definition spec_asset_name (image_url : jsstring) : jsstring :=
  lit "template." ++ extension image_url.

(** The template assets passed to the Project Service in a trace. *)
Definition assets (tr : list Event) : list (option File) :=
  omap (fun ev =>
          match ev with
          | EvInitializeProject _ _ tf _ => Some tf
          | _ => None
          end) tr.

(** The number of template sources that are active in a state: a local
    file, a saved template (a truthy id), both or none. *)
Definition active_sources (h : HomeState) : nat :=
  ((match selectedTemplate h with Some _ => 1 | None => 0 end) +
   (if truthy_opt (selectedTemplateId h) then 1 else 0))%nat.

(** Every template asset in the trace is absent, or is made of a body that
    was fetched and read right before the call. *)
Definition fresh_assets (tr : list Event) : Prop :=
  forall ty c tf r pre post,
    tr = pre ++ EvInitializeProject ty c tf r :: post ->
    tf = None \/
    exists url resp b pre',
      pre = pre' ++ [EvFetch url (Returns resp); EvBlob (Returns b)] /\
      tf = Some {| file_bits := blob_bytes b;
                   file_name := lit "template.png";
                   file_type := blob_type b |}.

(** ** Sample data *)

Definition network_error : JsError :=
  {| message := Some (lit "Network Error") |}.

Definition sample_template : UserTemplate :=
  {| template_id := lit "t9";
     name := None;
     template_image_url := lit "/files/user-templates/t9/template.jpg" |}.

Definition sample_blob : Blob :=
  {| blob_bytes := [Byte.xff; Byte.xd8; Byte.xff];
     blob_type := lit "image/jpeg" |}.

Definition sample_file : File :=
  {| file_bits := [Byte.xff; Byte.xd8; Byte.xff];
     file_name := lit "style.jpg";
     file_type := lit "image/jpeg" |}.

(** Every collaborator answers; the new project is [p123]. *)
Definition online : World :=
  {| getImageUrl := fun p => lit "http://localhost:5000" ++ p;
     fetch := fun _ => Returns {| response_blob := Returns sample_blob |};
     listUserTemplates := Returns (Some [sample_template]);
     uploadUserTemplate := fun _ => Returns (Some sample_template);
     initializeProject :=
       fun _ _ _ ls => Returns (<[lit "currentProjectId" := lit "p123"]> ls);
     initializeProject_leaves := fun _ _ _ ls => ls |}.

(** The catalog and the image host are unreachable; the Project Service
    answers, the new project is [p456]. *)
Definition offline : World :=
  {| getImageUrl := fun p => lit "http://localhost:5000" ++ p;
     fetch := fun _ => Throws network_error;
     listUserTemplates := Throws network_error;
     uploadUserTemplate := fun _ => Throws network_error;
     initializeProject :=
       fun _ _ _ ls => Returns (<[lit "currentProjectId" := lit "p456"]> ls);
     initializeProject_leaves := fun _ _ _ ls => ls |}.

(** A Project Service that returns without storing a project id. *)
Definition inconsistent : World :=
  {| getImageUrl := fun p => lit "http://localhost:5000" ++ p;
     fetch := fun _ => Returns {| response_blob := Returns sample_blob |};
     listUserTemplates := Returns (Some [sample_template]);
     uploadUserTemplate := fun _ => Returns (Some sample_template);
     initializeProject := fun _ _ _ ls => Returns ls;
     initializeProject_leaves := fun _ _ _ ls => ls |}.

(** A render with the sample template in the snapshot and selected. *)
Definition sample_state (ty : CreationType) (c : jsstring) : HomeState :=
  {| activeTab := ty;
     content := c;
     selectedTemplate := None;
     selectedTemplateId := Some (lit "t9");
     userTemplates := [sample_template];
     isLoadingTemplates := false |}.

(** The component after the catalog was loaded and the sample template was
    clicked. *)
Definition sample_session : Sigma :=
  run (boot ∅) [(online, Mount); (online, ClickTemplate sample_template)].

(* ===================================================================== *)
(** ** The render: what is shown and what is offered *)
(* ===================================================================== *)

(** The default name of the banner (line 285), as code units. *)
Definition msg_unnamed : jsstring :=
  [0x672A; 0x547D; 0x540D; 0x6A21; 0x677F].

(** Line 282: the banner of the selected template is rendered when
    [selectedTemplateId] is truthy. *)
Definition bannerShown (h : HomeState) : bool :=
  truthy_opt (selectedTemplateId h).

(** Line 285: [userTemplates.find(t => t.template_id ===
    selectedTemplateId)?.name || default]. *)
Definition bannerName (h : HomeState) : jsstring :=
  or_else
    (match
       List.find (fun t => bool_decide (Some (template_id t) = selectedTemplateId h))
         (userTemplates h)
     with
     | Some t => name t
     | None => None
     end)
    msg_unnamed.

(** What the render with state [h] offers to the user: the tabs, the text
    area, the submit button and the history button always; a card for each
    record of the snapshot (lines 230-233); the file input unless the
    catalog is loading (line 276); the remove button inside the banner
    (lines 282-294).  The effect of line 31 is not a user action: it runs
    once, after the first render; its pending call can answer only while it
    is pending. *)
Definition enabled (h : HomeState) (a : Action) : Prop :=
  match a with
  | Mount => False
  | ClickTab _ => True
  | EditContent _ => True
  | PickFile _ => isLoadingTemplates h = false
  | ClickTemplate t => In t (userTemplates h)
  | ClickRemove => truthy_opt (selectedTemplateId h) = true
  | ClickSubmit => True
  | ClickHistory => True
  | MountPending => False
  | CatalogAnswers => isLoadingTemplates h = true
  end.

(** A session in which every action is offered by the render it is done
    on (or, for the answer of the catalog, is awaited by it). *)
Fixpoint offered (σ : Sigma) (was : list (World * Action)) : Prop :=
  match was with
  | [] => True
  | wa :: rest => enabled (home σ) wa.2 /\ offered (step σ wa) rest
  end.

(** The component after its first render, the effect of line 31 started
    and the catalog call pending.  ([MountPending] asks nothing of the
    world; the world of the step is the one met at mount.) *)
Definition mounting (w : World) (ls : Storage) : Sigma :=
  step (boot ls) (w, MountPending).


(** While the catalog call is pending there is no snapshot and no
    selection. *)
Definition nothing_while_loading (h : HomeState) : Prop :=
  isLoadingTemplates h = true ->
  userTemplates h = [] /\ selectedTemplateId h = None.

(** The record that an action adds to the catalog, if any: a picked file
    whose upload returns one. *)
Definition uploaded (wa : World * Action) : option UserTemplate :=
  match wa.2 with
  | PickFile (Some f) =>
      match uploadUserTemplate wa.1 f with
      | Returns (Some t) => Some t
      | _ => None
      end
  | _ => None
  end.

(** The selected id, when there is one, is the id of a record of the
    snapshot. *)
Definition selection_in_snapshot (h : HomeState) : Prop :=
  selectedTemplateId h = None \/
  exists t, In t (userTemplates h) /\ selectedTemplateId h = Some (template_id t).

(** More sample data. *)

Definition quota_error : JsError :=
  {| message := Some (lit "quota exceeded") |}.

(** A Project Service that refuses, after it has stored an id. *)
Definition refusing : World :=
  {| getImageUrl := fun p => lit "http://localhost:5000" ++ p;
     fetch := fun _ => Returns {| response_blob := Returns sample_blob |};
     listUserTemplates := Returns (Some [sample_template]);
     uploadUserTemplate := fun _ => Returns (Some sample_template);
     initializeProject := fun _ _ _ _ => Throws quota_error;
     initializeProject_leaves :=
       fun _ _ _ ls => <[lit "currentProjectId" := lit "p000"]> ls |}.


(** A storage that holds the id of an earlier project. *)
Definition stale_storage : Storage :=
  <[lit "currentProjectId" := lit "old"]> ∅.

(** A catalog whose answers carry no data. *)
Definition dataless : World :=
  {| getImageUrl := fun p => lit "http://localhost:5000" ++ p;
     fetch := fun _ => Returns {| response_blob := Returns sample_blob |};
     listUserTemplates := Returns None;
     uploadUserTemplate := fun _ => Returns None;
     initializeProject :=
       fun _ _ _ ls => Returns (<[lit "currentProjectId" := lit "p789"]> ls);
     initializeProject_leaves := fun _ _ _ ls => ls |}.

Definition named_template : UserTemplate :=
  {| template_id := lit "t7";
     name := Some (lit "Ocean");
     template_image_url := lit "/files/user-templates/t7/template.webp" |}.

(** A catalog that stores the picked file as [named_template]. *)
Definition naming : World :=
  {| getImageUrl := fun p => lit "http://localhost:5000" ++ p;
     fetch := fun _ => Returns {| response_blob := Returns sample_blob |};
     listUserTemplates := Returns (Some [sample_template]);
     uploadUserTemplate := fun _ => Returns (Some named_template);
     initializeProject :=
       fun _ _ _ ls => Returns (<[lit "currentProjectId" := lit "p123"]> ls);
     initializeProject_leaves := fun _ _ _ ls => ls |}.

(** A state that holds a local file beside a selected saved template. *)
Definition local_file_state : HomeState :=
  {| activeTab := idea;
     content := lit "AI history talk";
     selectedTemplate := Some sample_file;
     selectedTemplateId := Some (lit "t9");
     userTemplates := [sample_template];
     isLoadingTemplates := false |}.

(** What a session types into the text area, and the tabs it clicks, in
    order. *)
Definition edits (was : list (World * Action)) : list jsstring :=
  omap (fun wa => match wa.2 with EditContent c => Some c | _ => None end) was.

Definition tabs (was : list (World * Action)) : list CreationType :=
  omap (fun wa => match wa.2 with ClickTab ty => Some ty | _ => None end) was.

(** A Project Service that stores an empty project id. *)
Definition blank_id : World :=
  {| getImageUrl := fun p => lit "http://localhost:5000" ++ p;
     fetch := fun _ => Returns {| response_blob := Returns sample_blob |};
     listUserTemplates := Returns (Some [sample_template]);
     uploadUserTemplate := fun _ => Returns (Some sample_template);
     initializeProject :=
       fun _ _ _ ls => Returns (<[lit "currentProjectId" := []]> ls);
     initializeProject_leaves := fun _ _ _ ls => ls |}.

(* ===================================================================== *)
(** ** [trim] *)
(* ===================================================================== *)

Section Trim.

Implicit Types s : jsstring.

Lemma trimStart_nil s :
  trimStart s = [] <-> Forall (fun c => isWhiteSpace c = true) s.
Proof.
  induction s as [|c r IH]; simpl.
  - split; auto.
  - destruct (isWhiteSpace c) eqn:Hc.
    + rewrite IH. split.
      * intros Hr. constructor; assumption.
      * intros Hall. inversion Hall; assumption.
    + split; [discriminate|].
      intros Hall. inversion Hall; congruence.
Qed.

(** What [trimStart] leaves is empty or starts with a character that is
    not white space. *)
Lemma trimStart_head s c r :
  trimStart s = c :: r -> isWhiteSpace c = false.
Proof.
  induction s as [|d t IH]; simpl; [discriminate|].
  destruct (isWhiteSpace d) eqn:Hd; [exact IH|].
  intros [= -> _]. exact Hd.
Qed.

Lemma trimEnd_nil s :
  trimEnd s = [] <-> Forall (fun c => isWhiteSpace c = true) s.
Proof.
  unfold trimEnd. split.
  - intros H. apply (f_equal (@rev N)) in H. rewrite rev_involutive in H.
    simpl in H. apply trimStart_nil in H.
    apply Forall_rev in H. rewrite rev_involutive in H. exact H.
  - intros H. apply Forall_rev in H. apply trimStart_nil in H.
    rewrite H. reflexivity.
Qed.

(** The trimmed form is empty exactly for the strings made of white
    space only (the empty string among them). *)
Lemma trim_nil s :
  trim s = [] <-> Forall (fun c => isWhiteSpace c = true) s.
Proof.
  unfold trim. rewrite trimEnd_nil. split.
  - intros H. apply trimStart_nil.
    destruct (trimStart s) as [|c r] eqn:E; [reflexivity|].
    apply trimStart_head in E. inversion H; congruence.
  - intros H. apply trimStart_nil in H. rewrite H. constructor.
Qed.

Lemma truthy_trim s : truthy (trim s) = false <-> trim s = [].
Proof. destruct (trim s); simpl; split; congruence. Qed.

End Trim.

(* ===================================================================== *)
(** ** Running the primitives *)
(* ===================================================================== *)

Section Primitives.

Context {A B : Type}.
Implicit Types (σ : Sigma) (tr : list Event).

Lemma logged_nil σ : logged σ [] = σ.
Proof. destruct σ. unfold logged. simpl. rewrite app_nil_r. reflexivity. Qed.

Lemma logged_logged σ tr1 tr2 :
  logged (logged σ tr1) tr2 = logged σ (tr1 ++ tr2).
Proof. unfold logged. simpl. rewrite <- app_assoc. reflexivity. Qed.

Lemma run_bind (m : M A) (k : A -> M B) σ :
  (m ≫= k : M B) σ =
  match m σ with
  | (Returns a, σ') => k a σ'
  | (Throws e, σ') => (Throws e, σ')
  end.
Proof. reflexivity. Qed.

Lemma run_ret (a : A) σ : ret a σ = (Returns a, σ).
Proof. reflexivity. Qed.

Lemma run_await (r : Completion A) σ : await r σ = (r, σ).
Proof. reflexivity. Qed.

Lemma run_emit ev σ : emit ev σ = (Returns tt, logged σ [ev]).
Proof. reflexivity. Qed.

End Primitives.

Lemma run_show t σ : show t σ = (Returns tt, logged σ [EvShow t]).
Proof. reflexivity. Qed.

Lemma run_navigate p σ : navigate p σ = (Returns tt, logged σ [EvNavigate p]).
Proof. reflexivity. Qed.

Lemma run_console_error l e σ :
  console_error l e σ = (Returns tt, logged σ [EvConsoleError l e]).
Proof. reflexivity. Qed.

Lemma run_console_warn l e σ :
  console_warn l e σ = (Returns tt, logged σ [EvConsoleWarn l e]).
Proof. reflexivity. Qed.

Lemma run_js_fetch w url σ :
  js_fetch w url σ = (fetch w url, logged σ [EvFetch url (fetch w url)]).
Proof. reflexivity. Qed.

Lemma run_read_blob resp σ :
  read_blob resp σ = (response_blob resp, logged σ [EvBlob (response_blob resp)]).
Proof. reflexivity. Qed.

Lemma run_upload w f σ :
  api_uploadUserTemplate w f σ =
  (uploadUserTemplate w f,
   logged σ [EvUploadUserTemplate f (uploadUserTemplate w f)]).
Proof. reflexivity. Qed.

Lemma run_list w σ :
  api_listUserTemplates w σ =
  (listUserTemplates w, logged σ [EvListUserTemplates (listUserTemplates w)]).
Proof. reflexivity. Qed.

Create Rewrite HintDb js_run.
#[local] Hint Rewrite @run_bind @run_ret @run_await @run_emit run_show
  run_navigate run_console_error run_console_warn run_js_fetch run_read_blob
  run_upload run_list @logged_logged : js_run.

(** Symbolic execution of a straight-line piece of a handler. *)
Ltac js_run := repeat (autorewrite with js_run; simpl).

(* ===================================================================== *)
(** ** The stages of [handleSubmit] *)
(* ===================================================================== *)

Lemma handleSubmit_stages w s :
  handleSubmit w s =
  if negb (truthy (trim (content s))) then show toast_enter_content
  else try_catch
         (templateFile ← resolveTemplate w s; createAndRoute w s templateFile)
         (fun error => console_error log_create_failed error).
Proof. reflexivity. Qed.

(** Template resolution never throws and changes neither the component
    nor the storage. *)
Lemma resolveTemplate_spec w s σ :
  exists tf tr,
    resolveTemplate w s σ = (Returns tf, logged σ tr) /\ Resolution w s tf tr.
Proof.
  unfold resolveTemplate.
  destruct (truthy_opt (selectedTemplateId s)
            && negb (bool_decide (is_Some (selectedTemplate s)))) eqn:Hguard.
  2:{ exists (selectedTemplate s), []. rewrite logged_nil.
      split; [reflexivity | constructor; exact Hguard]. }
  apply andb_prop in Hguard as [Hid Hsel].
  assert (selectedTemplate s = None) as Hnone.
  { destruct (selectedTemplate s); [|reflexivity].
    rewrite bool_decide_eq_true_2 in Hsel by eauto. discriminate. }
  clear Hsel. rewrite Hnone. unfold try_catch.
  destruct (List.find _ _) as [t|] eqn:Hfind.
  2:{ exists None, []. rewrite logged_nil.
      split; [reflexivity | now constructor]. }
  js_run.
  destruct (fetch w _) as [resp|e] eqn:Hfetch; js_run.
  2:{ eexists _, _. split; [reflexivity | now econstructor]. }
  destruct (response_blob resp) as [b|e] eqn:Hblob; js_run.
  - eexists _, _. split; [reflexivity | now econstructor].
  - eexists _, _. split; [reflexivity | now econstructor].
Qed.

Lemma run_store_initializeProject w ty c tf σ :
  store_initializeProject w ty c tf σ =
  let r := initializeProject w ty c tf (localStorage σ) in
  (match r with Returns _ => Returns tt | Throws e => Throws e end,
   {| home := home σ;
      localStorage :=
        match r with
        | Returns ls => ls
        | Throws _ => initializeProject_leaves w ty c tf (localStorage σ)
        end;
      events := events σ ++ [EvInitializeProject ty c tf r] |}).
Proof.
  unfold store_initializeProject.
  destruct (initializeProject w ty c tf (localStorage σ)); reflexivity.
Qed.

Lemma createAndRoute_spec w s tf σ :
  exists c ls' tr,
    createAndRoute w s tf σ =
      (c, {| home := home σ; localStorage := ls'; events := events σ ++ tr |})
    /\ Routing w s tf (localStorage σ) c ls' tr.
Proof.
  unfold createAndRoute. rewrite run_bind, run_store_initializeProject. simpl.
  destruct (initializeProject w _ _ tf _) as [ls'|e] eqn:Hinit.
  2:{ eexists _, _, _. split; [reflexivity | now constructor]. }
  rewrite run_bind. unfold getItem. simpl.
  destruct (ls' !! lit "currentProjectId") as [id|] eqn:Hid; simpl.
  2:{ eexists _, _, _. split.
      - rewrite run_show. unfold logged. simpl. rewrite <- app_assoc. reflexivity.
      - apply routing_id_missing; [assumption | rewrite Hid; reflexivity]. }
  destruct (truthy id) eqn:Htruthy; simpl.
  2:{ eexists _, _, _. split.
      - rewrite run_show. unfold logged. simpl. rewrite <- app_assoc. reflexivity.
      - apply routing_id_missing; [assumption | rewrite Hid; exact Htruthy]. }
  exists (Returns tt), ls', 
    [EvInitializeProject (activeTab s) (content s) tf (Returns ls');
     EvNavigate (spec_route (activeTab s) id)].
  split; [|now econstructor].
  destruct (activeTab s); rewrite run_navigate; unfold logged; simpl;
    rewrite <- app_assoc; reflexivity.
Qed.

(** [handleSubmit] always returns normally, never changes the component's
    state, and does what [Submission] says. *)
Lemma handleSubmit_spec w s σ :
  exists ls' tr,
    handleSubmit w s σ =
      (Returns tt,
       {| home := home σ; localStorage := ls'; events := events σ ++ tr |})
    /\ Submission w s (localStorage σ) ls' tr.
Proof.
  rewrite handleSubmit_stages.
  destruct (truthy (trim (content s))) eqn:Hvalid; simpl.
  2:{ apply truthy_trim in Hvalid. eexists _, _.
      split; [reflexivity | now constructor]. }
  assert (trim (content s) <> []) as Hne.
  { intros E. rewrite E in Hvalid. discriminate. }
  unfold try_catch. rewrite run_bind.
  destruct (resolveTemplate_spec w s σ) as (tf & tr1 & -> & Hres).
  destruct (createAndRoute_spec w s tf (logged σ tr1))
    as (c & ls' & tr2 & -> & Hroute).
  simpl in *. exists ls', (tr1 ++ tr2 ++ caught c).
  split; [|eapply submission_accepted; eassumption].
  destruct c as [[]|e]; simpl.
  - rewrite app_nil_r, <- app_assoc. reflexivity.
  - rewrite run_console_error. unfold logged. simpl.
    rewrite <- !app_assoc. reflexivity.
Qed.

Lemma exec_handleSubmit w s ls :
  exists ls' tr,
    exec (handleSubmit w s) s ls =
      (Returns tt, {| home := s; localStorage := ls'; events := tr |})
    /\ Submission w s ls ls' tr.
Proof.
  unfold exec.
  destruct (handleSubmit_spec w s
              {| home := s; localStorage := ls; events := [] |})
    as (ls' & tr & Hrun & Hsub).
  exists ls', tr. split; assumption.
Qed.

(** *** Reading a trace *)

Lemma navigations_app tr1 tr2 :
  navigations (tr1 ++ tr2) = navigations tr1 ++ navigations tr2.
Proof. apply omap_app. Qed.

Lemma initializations_app tr1 tr2 :
  initializations (tr1 ++ tr2) = initializations tr1 ++ initializations tr2.
Proof. apply omap_app. Qed.

Lemma toasts_app tr1 tr2 : toasts (tr1 ++ tr2) = toasts tr1 ++ toasts tr2.
Proof. apply omap_app. Qed.

Lemma fetches_app tr1 tr2 : fetches (tr1 ++ tr2) = fetches tr1 ++ fetches tr2.
Proof. apply omap_app. Qed.

Lemma In_initializations tr ty c tf r :
  In (EvInitializeProject ty c tf r) tr <-> In (ty, c, tf, r) (initializations tr).
Proof.
  unfold initializations. rewrite <- !list_elem_of_In, list_elem_of_omap.
  split.
  - intros Hin. eexists. split; [exact Hin | reflexivity].
  - intros (ev & Hin & Hev). destruct ev; try discriminate.
    injection Hev as -> -> -> ->. exact Hin.
Qed.

(** Template resolution shows nothing, navigates nowhere and does not call
    the Project Service. *)
Lemma Resolution_silent w s tf tr :
  Resolution w s tf tr ->
  initializations tr = [] /\ navigations tr = [] /\ toasts tr = [].
Proof. intros H. destruct H; repeat split. Qed.

Lemma caught_silent c :
  initializations (caught c) = [] /\ navigations (caught c) = [] /\
  toasts (caught c) = [] /\ fetches (caught c) = [].
Proof. destruct c; repeat split. Qed.

(** The second stage calls the Project Service exactly once, with the
    template file it was given, and fetches nothing. *)
Lemma Routing_initializations w s tf ls c ls' tr :
  Routing w s tf ls c ls' tr ->
  initializations tr =
    [(activeTab s, content s, tf,
      initializeProject w (activeTab s) (content s) tf ls)]
  /\ fetches tr = [].
Proof. intros H. destruct H; simpl; split; congruence. Qed.

(** The events of a submission whose content is valid, stage by stage. *)
Lemma Submission_accepted w s ls ls' tr :
  Submission w s ls ls' tr ->
  trim (content s) <> [] ->
  exists tf tr1 c tr2,
    Resolution w s tf tr1 /\ Routing w s tf ls c ls' tr2 /\
    tr = tr1 ++ tr2 ++ caught c /\
    initializations tr =
      [(activeTab s, content s, tf,
        initializeProject w (activeTab s) (content s) tf ls)] /\
    navigations tr = navigations tr2 /\ toasts tr = toasts tr2.
Proof.
  intros H Hvalid. destruct H as [Hblank | tf tr1 c ls' tr2 _ Hres Hroute].
  { contradiction. }
  exists tf, tr1, c, tr2.
  destruct (Resolution_silent _ _ _ _ Hres) as (Hi1 & Hn1 & Ht1).
  destruct (caught_silent c) as (Hi3 & Hn3 & Ht3 & _).
  destruct (Routing_initializations _ _ _ _ _ _ _ Hroute) as (Hi2 & _).
  rewrite !initializations_app, !navigations_app, !toasts_app.
  rewrite Hi1, Hn1, Ht1, Hi2, Hi3, Hn3, Ht3, !app_nil_r. simpl.
  repeat split; assumption.
Qed.

(** A call of the Project Service in the trace of a submission: the
    content was valid, and it is the one call of the second stage. *)
Lemma Submission_called w s ls ls' tr ty c tf r :
  Submission w s ls ls' tr ->
  In (EvInitializeProject ty c tf r) tr ->
  trim (content s) <> [] /\
  ty = activeTab s /\ c = content s /\
  r = initializeProject w (activeTab s) (content s) tf ls /\
  exists tr1 cc tr2,
    Resolution w s tf tr1 /\ Routing w s tf ls cc ls' tr2 /\
    navigations tr = navigations tr2 /\ toasts tr = toasts tr2.
Proof.
  intros Hsub Hin. apply In_initializations in Hin.
  destruct (nil_or_length_pos (trim (content s))) as [Hblank | Hvalid].
  { destruct Hsub as [_ | ? ? ? ? ? Hvalid _ _]; [destruct Hin | contradiction]. }
  assert (trim (content s) <> []) as Hne.
  { intros E. rewrite E in Hvalid. simpl in Hvalid. lia. }
  destruct (Submission_accepted _ _ _ _ _ Hsub Hne)
    as (tf0 & tr1 & cc & tr2 & Hres & Hroute & _ & Hone & Hnav & Htoast).
  rewrite Hone in Hin. destruct Hin as [Hin | []].
  injection Hin as <- <- <- <-.
  repeat split; try assumption; try reflexivity.
  exists tr1, cc, tr2. repeat split; assumption.
Qed.

(* ===================================================================== *)
(** ** Properties of the submission workflow *)
(* ===================================================================== *)

(** C1: in every submission in which the Project Service was called and
    returned leaving a project id under [currentProjectId], the component
    navigates exactly once, and the target depends on the creation type
    alone: [/project/{id}/outline] for [idea] and [outline],
    [/project/{id}/detail] for [description].  (A call of the Project
    Service in the trace means that validation has passed.) *)
Theorem C1_navigation_target (w : World) (s : HomeState) (ls : Storage)
    (ty : CreationType) (c : jsstring) (tf : option File)
    (ls' : Storage) (id : jsstring) :
  In (EvInitializeProject ty c tf (Returns ls'))
     (events (exec (handleSubmit w s) s ls).2) ->
  ls' !! lit "currentProjectId" = Some id ->
  id <> [] ->
  ty = activeTab s /\
  navigations (events (exec (handleSubmit w s) s ls).2)
    = [match ty with
       | idea | outline => lit "/project/" ++ id ++ lit "/outline"
       | description => lit "/project/" ++ id ++ lit "/detail"
       end].
Proof.
  destruct (exec_handleSubmit w s ls) as (ls1 & tr & -> & Hsub). simpl.
  intros Hin Hid Hne.
  destruct (Submission_called _ _ _ _ _ _ _ _ _ Hsub Hin)
    as (_ & -> & -> & Hinit & tr1 & cc & tr2 & _ & Hroute & -> & _).
  split; [reflexivity|].
  destruct Hroute as [e He | ls2 He Hmissing | ls2 id2 He Hid2 Htruthy]; simpl.
  - congruence.
  - assert (ls2 = ls') as -> by congruence.
    rewrite Hid in Hmissing. destruct id; [contradiction | discriminate].
  - assert (ls2 = ls') as -> by congruence.
    assert (id2 = id) as -> by congruence.
    destruct (activeTab s); reflexivity.
Qed.

Lemma C1_navigation_target_witness :
  navigations
    (events (exec (handleSubmit online (sample_state idea (lit "AI history talk")))
               (sample_state idea (lit "AI history talk")) ∅).2)
  = [lit "/project/p123/outline"].
Proof.
  apply (C1_navigation_target online (sample_state idea (lit "AI history talk")) ∅
           idea (lit "AI history talk") (Some (asset_of_blob sample_blob))
           (<[lit "currentProjectId" := lit "p123"]> ∅) (lit "p123")).
  - vm_compute. auto 10.
  - vm_compute. reflexivity.
  - discriminate.
Defined.

(** C2: when the trimmed content is empty, [handleSubmit] shows the
    validation error and does nothing else: no fetch, no call of the
    Project Service, no change of state or storage.  When the trimmed
    content is not empty, no validation error is shown and the Project
    Service is called, once, with the type and content of the render. *)
Theorem C2_validation (w : World) (s : HomeState) (ls : Storage) :
  (trim (content s) = [] ->
   exec (handleSubmit w s) s ls =
     (Returns tt,
      {| home := s; localStorage := ls;
         events := [EvShow {| toast_message := msg_enter_content;
                              toast_type := toast_error |}] |}))
  /\
  (trim (content s) <> [] ->
   ~ In {| toast_message := msg_enter_content; toast_type := toast_error |}
        (toasts (events (exec (handleSubmit w s) s ls).2))
   /\ exists tf,
        initializations (events (exec (handleSubmit w s) s ls).2) =
          [(activeTab s, content s, tf,
            initializeProject w (activeTab s) (content s) tf ls)]).
Proof.
  destruct (exec_handleSubmit w s ls) as (ls1 & tr & -> & Hsub). simpl.
  split.
  - intros Hblank.
    destruct Hsub as [_ | ? ? ? ? ? Hvalid _ _]; [reflexivity | contradiction].
  - intros Hvalid.
    destruct (Submission_accepted _ _ _ _ _ Hsub Hvalid)
      as (tf & tr1 & c & tr2 & _ & Hroute & _ & Hone & _ & ->).
    split; [|exists tf; exact Hone].
    destruct Hroute; simpl; intros Hin;
      repeat destruct Hin as [Hin | Hin]; try discriminate; assumption.
Qed.

Lemma C2_validation_witness :
  events
    (exec (handleSubmit online (sample_state idea [0x20; 0x0A; 0x3000]))
       (sample_state idea [0x20; 0x0A; 0x3000]) ∅).2
  = [EvShow toast_enter_content]
  /\ exists tf,
       initializations
         (events
            (exec (handleSubmit online (sample_state idea (lit " AI ")))
               (sample_state idea (lit " AI ")) ∅).2)
       = [(idea, lit " AI ", tf,
           initializeProject online idea (lit " AI ") tf ∅)].
Proof.
  split.
  - rewrite (proj1 (C2_validation online
                      (sample_state idea [0x20; 0x0A; 0x3000]) ∅)).
    + reflexivity.
    + reflexivity.
  - apply (proj2 (C2_validation online (sample_state idea (lit " AI ")) ∅)).
    vm_compute. discriminate.
Defined.

(** X9: a content made of white space only (spaces, tabs, line breaks,
    no-break and ideographic spaces, ...) is rejected: the validation toast
    is the only event of the submission. *)
Lemma whitespace_only_rejected (w : World) (s : HomeState) (ls : Storage) :
  Forall (fun c => isWhiteSpace c = true) (content s) ->
  events (exec (handleSubmit w s) s ls).2 = [EvShow toast_enter_content].
Proof.
  intros Hws. apply trim_nil in Hws.
  destruct (exec_handleSubmit w s ls) as (ls1 & tr & -> & Hsub). simpl.
  destruct Hsub as [_ | ? ? ? ? ? Hvalid _ _]; [reflexivity | contradiction].
Qed.

(** C8 (as the code has it): in every submission in which the Project
    Service was called and returned, and [currentProjectId] holds nothing
    after the call, the generic failure message is shown and [navigate] is
    not called. *)
Theorem C8_project_id_missing (w : World) (s : HomeState) (ls : Storage)
    (ty : CreationType) (c : jsstring) (tf : option File) (ls' : Storage) :
  In (EvInitializeProject ty c tf (Returns ls'))
     (events (exec (handleSubmit w s) s ls).2) ->
  ls' !! lit "currentProjectId" = None ->
  toasts (events (exec (handleSubmit w s) s ls).2)
    = [{| toast_message := msg_create_failed; toast_type := toast_error |}]
  /\ navigations (events (exec (handleSubmit w s) s ls).2) = [].
Proof.
  destruct (exec_handleSubmit w s ls) as (ls1 & tr & -> & Hsub). simpl.
  intros Hin Hid.
  destruct (Submission_called _ _ _ _ _ _ _ _ _ Hsub Hin)
    as (_ & -> & -> & Hinit & tr1 & cc & tr2 & _ & Hroute & -> & ->).
  destruct Hroute as [e He | ls2 He Hmissing | ls2 id2 He Hid2 Htruthy]; simpl.
  - congruence.
  - split; reflexivity.
  - assert (ls2 = ls') as -> by congruence. congruence.
Qed.

Lemma C8_project_id_missing_witness :
  toasts
    (events (exec (handleSubmit inconsistent (sample_state outline (lit "Part 1")))
               (sample_state outline (lit "Part 1")) ∅).2)
  = [toast_create_failed]
  /\ navigations
       (events (exec (handleSubmit inconsistent (sample_state outline (lit "Part 1")))
                  (sample_state outline (lit "Part 1")) ∅).2)
     = [].
Proof.
  apply (C8_project_id_missing inconsistent
           (sample_state outline (lit "Part 1")) ∅
           outline (lit "Part 1") (Some (asset_of_blob sample_blob)) ∅).
  - vm_compute. auto 10.
  - reflexivity.
Defined.

(** C8 as the spec words it fails: the component reads whatever the key
    holds.  When the storage holds the id of an earlier project and the
    Project Service returns without storing a new one, the new id is
    absent, yet no failure is shown and the component navigates to the old
    project. *)
Lemma C8_stale_id_counterexample :
  initializeProject inconsistent outline (lit "Part 1")
    (Some (asset_of_blob sample_blob)) stale_storage
  = Returns stale_storage /\
  toasts
    (events (exec (handleSubmit inconsistent (sample_state outline (lit "Part 1")))
               (sample_state outline (lit "Part 1")) stale_storage).2)
  = [] /\
  navigations
    (events (exec (handleSubmit inconsistent (sample_state outline (lit "Part 1")))
               (sample_state outline (lit "Part 1")) stale_storage).2)
  = [lit "/project/old/outline"].
Proof.
  split; [reflexivity|]. split; vm_compute; reflexivity.
Qed.

(** X18: when the Project Service returned and [currentProjectId] holds the
    empty string, which is falsy, the generic failure message is shown and
    [navigate] is not called, as for a missing id. *)
Lemma project_id_empty (w : World) (s : HomeState) (ls : Storage)
    (ty : CreationType) (c : jsstring) (tf : option File) (ls' : Storage) :
  In (EvInitializeProject ty c tf (Returns ls'))
     (events (exec (handleSubmit w s) s ls).2) ->
  ls' !! lit "currentProjectId" = Some [] ->
  toasts (events (exec (handleSubmit w s) s ls).2) = [toast_create_failed]
  /\ navigations (events (exec (handleSubmit w s) s ls).2) = [].
Proof.
  destruct (exec_handleSubmit w s ls) as (ls1 & tr & -> & Hsub). simpl.
  intros Hin Hid.
  destruct (Submission_called _ _ _ _ _ _ _ _ _ Hsub Hin)
    as (_ & -> & -> & Hinit & tr1 & cc & tr2 & _ & Hroute & -> & ->).
  destruct Hroute as [e He | ls2 He Hmissing | ls2 id2 He Hid2 Htruthy]; simpl.
  - congruence.
  - split; reflexivity.
  - assert (ls2 = ls') as -> by congruence.
    rewrite Hid in Hid2. injection Hid2 as <-. discriminate.
Qed.

(** When materialization fails, resolution ends with no template file. *)
Lemma Resolution_failed w s tf tr :
  Resolution w s tf tr ->
  selectedTemplate s = None ->
  materialization_fails w s ->
  tf = None.
Proof.
  intros Hres Hsel Hfail. unfold materialization_fails in Hfail.
  destruct Hres as [_ | | | | t resp b _ _ Hfind Hfetch Hblob];
    try reflexivity; try assumption.
  rewrite Hfind, Hfetch, Hblob in Hfail. destruct Hfail.
Qed.

(** When the record is found and its image is fetched and read, resolution
    ends with the asset made of the body. *)
Lemma Resolution_fetched w s tf tr t resp b :
  Resolution w s tf tr ->
  selectedTemplate s = None ->
  truthy_opt (selectedTemplateId s) = true ->
  List.find (fun t => bool_decide (Some (template_id t) = selectedTemplateId s))
    (userTemplates s) = Some t ->
  fetch w (getImageUrl w (template_image_url t)) = Returns resp ->
  response_blob resp = Returns b ->
  tf = Some (asset_of_blob b) /\
  tr = [EvFetch (getImageUrl w (template_image_url t)) (Returns resp);
        EvBlob (Returns b)].
Proof.
  intros Hres Hsel Hid Hfind Hfetch Hblob.
  destruct Hres as [Hguard | | | |].
  - rewrite Hid, Hsel in Hguard. discriminate.
  - congruence.
  - congruence.
  - congruence.
  - assert (t0 = t) as -> by congruence.
    assert (resp0 = resp) as -> by congruence.
    assert (b0 = b) as -> by congruence.
    split; reflexivity.
Qed.

(** C3: when the content is valid and materializing the selected saved
    template fails (record not in the snapshot, fetch throws, or reading
    the body throws), [handleSubmit] still returns normally and calls the
    Project Service, once and with no template asset; and when that call
    returns with a project id in place, the component navigates to the
    route of the creation type and shows no error. *)
Theorem C3_degrade_not_abort (w : World) (s : HomeState) (ls : Storage) :
  trim (content s) <> [] ->
  selectedTemplate s = None ->
  materialization_fails w s ->
  (exec (handleSubmit w s) s ls).1 = Returns tt /\
  initializations (events (exec (handleSubmit w s) s ls).2) =
    [(activeTab s, content s, None,
      initializeProject w (activeTab s) (content s) None ls)] /\
  forall ls' id,
    initializeProject w (activeTab s) (content s) None ls = Returns ls' ->
    ls' !! lit "currentProjectId" = Some id ->
    id <> [] ->
    navigations (events (exec (handleSubmit w s) s ls).2)
      = [spec_route (activeTab s) id] /\
    toasts (events (exec (handleSubmit w s) s ls).2) = [].
Proof.
  intros Hvalid Hsel Hfail.
  destruct (exec_handleSubmit w s ls) as (ls1 & tr & -> & Hsub). simpl.
  destruct (Submission_accepted _ _ _ _ _ Hsub Hvalid)
    as (tf & tr1 & c & tr2 & Hres & Hroute & _ & Hone & -> & ->).
  assert (tf = None) as -> by (eapply Resolution_failed; eassumption).
  split; [reflexivity|]. split; [exact Hone|].
  intros ls' id Hinit Hid Hne.
  destruct Hroute as [e He | ls2 He Hmissing | ls2 id2 He Hid2 Htruthy]; simpl.
  - congruence.
  - assert (ls2 = ls') as -> by congruence.
    rewrite Hid in Hmissing. destruct id; [contradiction | discriminate].
  - assert (ls2 = ls') as -> by congruence.
    assert (id2 = id) as -> by congruence.
    split; reflexivity.
Qed.

Lemma C3_degrade_not_abort_witness :
  initializations
    (events (exec (handleSubmit offline (sample_state description (lit "Page 1")))
               (sample_state description (lit "Page 1")) ∅).2)
  = [(description, lit "Page 1", None,
      Returns (<[lit "currentProjectId" := lit "p456"]> ∅))]
  /\ navigations
       (events (exec (handleSubmit offline (sample_state description (lit "Page 1")))
                  (sample_state description (lit "Page 1")) ∅).2)
     = [lit "/project/p456/detail"].
Proof.
  pose proof (C3_degrade_not_abort offline
                (sample_state description (lit "Page 1")) ∅) as H.
  destruct H as (_ & Hone & Hnav).
  - discriminate.
  - reflexivity.
  - exact I.
  - split; [exact Hone|].
    apply (Hnav (<[lit "currentProjectId" := lit "p456"]> ∅) (lit "p456")).
    + reflexivity.
    + vm_compute. reflexivity.
    + discriminate.
Defined.

(** C7 (as the code has it): when the content is valid, a saved template
    is selected, its record is in the snapshot and its image is fetched and
    read, the one fetch goes to the URL of the record's image, and the
    asset passed to the Project Service holds the bytes of the body, the
    content type reported by the fetch, and the fixed name [template.png],
    whatever the extension of the image. *)
Theorem C7_materialized_asset (w : World) (s : HomeState) (ls : Storage)
    (t : UserTemplate) (resp : Response) (b : Blob) :
  trim (content s) <> [] ->
  selectedTemplate s = None ->
  truthy_opt (selectedTemplateId s) = true ->
  List.find (fun t => bool_decide (Some (template_id t) = selectedTemplateId s))
    (userTemplates s) = Some t ->
  fetch w (getImageUrl w (template_image_url t)) = Returns resp ->
  response_blob resp = Returns b ->
  fetches (events (exec (handleSubmit w s) s ls).2) =
    [(getImageUrl w (template_image_url t), Returns resp)] /\
  assets (events (exec (handleSubmit w s) s ls).2) =
    [Some {| file_bits := blob_bytes b;
             file_name := lit "template.png";
             file_type := blob_type b |}].
Proof.
  intros Hvalid Hsel Hid Hfind Hfetch Hblob.
  destruct (exec_handleSubmit w s ls) as (ls1 & tr & -> & Hsub). simpl.
  destruct (Submission_accepted _ _ _ _ _ Hsub Hvalid)
    as (tf & tr1 & c & tr2 & Hres & Hroute & -> & _).
  destruct (Resolution_fetched _ _ _ _ _ _ _ Hres Hsel Hid Hfind Hfetch Hblob)
    as (-> & ->).
  destruct Hroute; split; reflexivity.
Qed.

Lemma C7_materialized_asset_witness :
  assets
    (events (exec (handleSubmit online (sample_state idea (lit "AI history talk")))
               (sample_state idea (lit "AI history talk")) ∅).2)
  = [Some {| file_bits := [Byte.xff; Byte.xd8; Byte.xff];
             file_name := lit "template.png";
             file_type := lit "image/jpeg" |}].
Proof.
  apply (C7_materialized_asset online
           (sample_state idea (lit "AI history talk")) ∅
           sample_template {| response_blob := Returns sample_blob |}
           sample_blob).
  - discriminate.
  - reflexivity.
  - reflexivity.
  - vm_compute. reflexivity.
  - reflexivity.
  - reflexivity.
Defined.

(** C7 as the spec words it fails: for the sample template, whose image
    is [template.jpg] and is served as [image/jpeg], the asset is not named
    [template.jpg]. *)
Lemma C7_extension_counterexample :
  extension (template_image_url sample_template) = lit "jpg" /\
  ~ (forall f,
       In (Some f)
          (assets
             (events
                (exec (handleSubmit online (sample_state idea (lit "AI history talk")))
                   (sample_state idea (lit "AI history talk")) ∅).2)) ->
       file_name f = spec_asset_name (template_image_url sample_template)).
Proof.
  split; [vm_compute; reflexivity|].
  intros H. specialize (H (asset_of_blob sample_blob)).
  assert (file_name (asset_of_blob sample_blob)
          = spec_asset_name (template_image_url sample_template)) as E.
  { apply H. vm_compute. left. reflexivity. }
  vm_compute in E. discriminate E.
Qed.

(** The examples of the spec. *)
Example idea_routes_to_outline :
  navigations
    (events (run (boot ∅)
               [(online, EditContent (lit "AI history talk"));
                (online, ClickSubmit)]))
  = [lit "/project/p123/outline"].
Proof. vm_compute. reflexivity. Qed.

Example description_routes_to_detail :
  navigations
    (events (run (boot ∅)
               [(offline, ClickTab description);
                (offline, EditContent (lit "Page 1: the birth of AI"));
                (offline, ClickSubmit)]))
  = [lit "/project/p456/detail"].
Proof. vm_compute. reflexivity. Qed.

(** The sample render is the state of a real session: the catalog is
    loaded, the sample template is clicked, the content is typed. *)
Example sample_state_reachable :
  home (run (boot ∅)
          [(online, Mount);
           (online, ClickTemplate sample_template);
           (online, EditContent (lit "AI history talk"))])
  = sample_state idea (lit "AI history talk").
Proof. vm_compute. reflexivity. Qed.

(* ===================================================================== *)
(** ** Properties of the template selection *)
(* ===================================================================== *)

Lemma step_PickFile_ok w σ f t :
  uploadUserTemplate w f = Returns (Some t) ->
  step σ (w, PickFile (Some f)) =
  {| home :=
       {| activeTab := activeTab (home σ);
          content := content (home σ);
          selectedTemplate := None;
          selectedTemplateId := Some (template_id t);
          userTemplates := t :: userTemplates (home σ);
          isLoadingTemplates := isLoadingTemplates (home σ) |};
     localStorage := localStorage σ;
     events := events σ ++ [EvUploadUserTemplate f (Returns (Some t));
                            EvShow toast_upload_ok] |}.
Proof.
  intros Hup. unfold step, handler, handleTemplateUpload, try_catch. simpl.
  rewrite run_bind, run_upload, Hup. simpl.
  unfold logged. simpl. rewrite <- app_assoc. reflexivity.
Qed.

Lemma step_PickFile_no_data w σ f :
  uploadUserTemplate w f = Returns None ->
  step σ (w, PickFile (Some f)) =
  logged σ [EvUploadUserTemplate f (Returns None)].
Proof.
  intros Hup. unfold step, handler, handleTemplateUpload, try_catch. simpl.
  rewrite run_bind, run_upload, Hup. reflexivity.
Qed.

Lemma step_PickFile_failed w σ f v :
  uploadUserTemplate w f = Throws v ->
  step σ (w, PickFile (Some f)) = logged σ (rejected_upload f v).
Proof.
  intros Hup. unfold step, handler, handleTemplateUpload, try_catch. simpl.
  rewrite run_bind, run_upload, Hup. simpl.
  destruct v; unfold logged; simpl; rewrite <- !app_assoc; reflexivity.
Qed.

(** On a thrown [null] or [undefined] the catch itself fails: the handler
    ends with the [TypeError] of the property read. *)
Lemma handleTemplateUpload_rethrows w σ f :
  (uploadUserTemplate w f = Throws js_null ->
   (handleTemplateUpload w (Some f) σ).1 = Throws (type_error "null")) /\
  (uploadUserTemplate w f = Throws js_undefined ->
   (handleTemplateUpload w (Some f) σ).1 = Throws (type_error "undefined")).
Proof.
  split; intros Hup; unfold handleTemplateUpload, try_catch;
    rewrite run_bind, run_upload, Hup; reflexivity.
Qed.

Lemma step_PickFile_none w σ : step σ (w, PickFile None) = σ.
Proof. destruct σ. reflexivity. Qed.

(** C5: when the upload of the picked file returns a record, the record
    is put at the front of the snapshot and its id becomes the selected
    saved template; the local-file selection is null, the rest of the state
    is as before, and the success toast is shown. *)
Theorem C5_upload_success (w : World) (σ : Sigma) (f : File) (t : UserTemplate) :
  uploadUserTemplate w f = Returns (Some t) ->
  userTemplates (home (step σ (w, PickFile (Some f))))
    = t :: userTemplates (home σ) /\
  selectedTemplateId (home (step σ (w, PickFile (Some f))))
    = Some (template_id t) /\
  selectedTemplate (home (step σ (w, PickFile (Some f)))) = None /\
  activeTab (home (step σ (w, PickFile (Some f)))) = activeTab (home σ) /\
  content (home (step σ (w, PickFile (Some f)))) = content (home σ) /\
  events (step σ (w, PickFile (Some f)))
    = events σ ++
      [EvUploadUserTemplate f (Returns (Some t));
       EvShow {| toast_message := msg_upload_ok; toast_type := toast_success |}].
Proof.
  intros Hup. rewrite (step_PickFile_ok _ _ _ _ Hup). simpl.
  repeat split.
Qed.

Lemma C5_upload_success_witness :
  userTemplates (home (step sample_session (online, PickFile (Some sample_file))))
    = [sample_template; sample_template] /\
  selectedTemplateId
    (home (step (boot ∅) (online, PickFile (Some sample_file))))
    = Some (lit "t9").
Proof.
  split.
  - apply (C5_upload_success online sample_session sample_file sample_template).
    reflexivity.
  - apply (C5_upload_success online (boot ∅) sample_file sample_template).
    reflexivity.
Defined.




(** C9: from any state, removing the template leaves the saved-template
    id and the local-file selection null, and changes nothing else. *)
Theorem C9_remove_resets (w : World) (σ : Sigma) :
  selectedTemplateId (home (step σ (w, ClickRemove))) = None /\
  selectedTemplate (home (step σ (w, ClickRemove))) = None /\
  activeTab (home (step σ (w, ClickRemove))) = activeTab (home σ) /\
  content (home (step σ (w, ClickRemove))) = content (home σ) /\
  userTemplates (home (step σ (w, ClickRemove))) = userTemplates (home σ) /\
  localStorage (step σ (w, ClickRemove)) = localStorage σ /\
  events (step σ (w, ClickRemove)) = events σ.
Proof. repeat split. Qed.

(** *** The steps of the screen *)

Lemma run_snoc σ was wa : run σ (was ++ [wa]) = step (run σ was) wa.
Proof. unfold run. rewrite fold_left_app. reflexivity. Qed.

(** A submission changes the storage and the trace only. *)
Lemma step_ClickSubmit σ w :
  exists ls' tr,
    step σ (w, ClickSubmit) =
      {| home := home σ; localStorage := ls'; events := events σ ++ tr |}
    /\ Submission w (home σ) (localStorage σ) ls' tr.
Proof.
  unfold step. simpl.
  destruct (handleSubmit_spec w (home σ) σ) as (ls' & tr & -> & Hsub).
  exists ls', tr. split; [reflexivity | assumption].
Qed.

(** Every other action leaves the storage alone, does not call the
    Project Service, and leaves the local-file selection as it was or
    null. *)
Lemma step_other σ w a :
  a <> ClickSubmit ->
  exists h tr,
    step σ (w, a) =
      {| home := h; localStorage := localStorage σ; events := events σ ++ tr |}
    /\ initializations tr = []
    /\ (selectedTemplate h = None \/ selectedTemplate h = selectedTemplate (home σ)).
Proof.
  intros Hneq. destruct a as [| ty | c | [f|] | t | | | | |].
  - (* Mount *)
    unfold step. cbn [fst snd handler].
    unfold loadUserTemplates, try_finally, try_catch.
    rewrite run_bind. unfold setIsLoadingTemplates at 1, setState.
    cbn beta iota. rewrite run_bind, run_list.
    destruct (listUserTemplates w) as [[l|]|e] eqn:Hlist; simpl;
      eexists _, _; (split; [unfold logged; simpl; try rewrite <- app_assoc; reflexivity|]);
      split; try reflexivity; right; reflexivity.
  - eexists _, []. rewrite app_nil_r. repeat split. right. reflexivity.
  - eexists _, []. rewrite app_nil_r. repeat split. right. reflexivity.
  - destruct (uploadUserTemplate w f) as [[t|]|e] eqn:Hup.
    + rewrite (step_PickFile_ok _ _ _ _ Hup).
      eexists _, _. repeat split. left. reflexivity.
    + rewrite (step_PickFile_no_data _ _ _ Hup).
      eexists _, _. repeat split. right. reflexivity.
    + rewrite (step_PickFile_failed _ _ _ _ Hup).
      exists (home σ), (rejected_upload f e).
      split; [reflexivity|]. split; [destruct e; reflexivity|].
      right. reflexivity.
  - rewrite step_PickFile_none. exists (home σ), []. rewrite app_nil_r.
    split; [destruct σ; reflexivity|]. split; [reflexivity|]. right. reflexivity.
  - eexists _, []. rewrite app_nil_r. repeat split. left. reflexivity.
  - eexists _, []. rewrite app_nil_r. repeat split. left. reflexivity.
  - contradiction.
  - (* ClickHistory *)
    exists (home σ), [EvNavigate (lit "/history")].
    split; [reflexivity|]. split; [reflexivity|]. right. reflexivity.
  - (* MountPending *)
    eexists _, []. rewrite app_nil_r. repeat split. right. reflexivity.
  - (* CatalogAnswers *)
    unfold step. cbn [fst snd handler].
    unfold loadUserTemplates_resume, try_finally, try_catch.
    rewrite run_bind, run_list.
    destruct (listUserTemplates w) as [[l|]|e] eqn:Hlist; simpl;
      eexists _, _; (split; [unfold logged; simpl; try rewrite <- app_assoc; reflexivity|]);
      split; try reflexivity; right; reflexivity.
Qed.

(** No action makes a local file the selection. *)
Lemma step_no_local_file σ wa :
  selectedTemplate (home (step σ wa)) = None \/
  selectedTemplate (home (step σ wa)) = selectedTemplate (home σ).
Proof.
  destruct wa as [w a].
  assert ({a = ClickSubmit} + {a <> ClickSubmit}) as [-> | Hneq]
    by (destruct a; (left; reflexivity) || (right; discriminate)).
  - destruct (step_ClickSubmit σ w) as (ls' & tr & -> & _). right. reflexivity.
  - destruct (step_other σ w a Hneq) as (h & tr & -> & _ & H). exact H.
Qed.

Lemma run_no_local_file σ was :
  selectedTemplate (home σ) = None ->
  selectedTemplate (home (run σ was)) = None.
Proof.
  induction was as [|wa was IH] using rev_ind; intros Hnone.
  - exact Hnone.
  - rewrite run_snoc.
    destruct (step_no_local_file (run σ was) wa) as [H | H].
    + exact H.
    + rewrite H. apply IH, Hnone.
Qed.

(** C4 (as the code has it): in every session the local-file selection is
    null, so at most one template source is active; from any state,
    clicking a saved template selects it and clears the local-file
    selection, and so does the auto-selection after a successful upload. *)
Theorem C4_at_most_one_source (ls : Storage) (was : list (World * Action)) :
  selectedTemplate (home (run (boot ls) was)) = None /\
  (active_sources (home (run (boot ls) was)) <= 1)%nat /\
  (forall σ w t,
     selectedTemplate (home (step σ (w, ClickTemplate t))) = None /\
     selectedTemplateId (home (step σ (w, ClickTemplate t)))
       = Some (template_id t)) /\
  (forall σ w f t,
     uploadUserTemplate w f = Returns (Some t) ->
     selectedTemplate (home (step σ (w, PickFile (Some f)))) = None /\
     selectedTemplateId (home (step σ (w, PickFile (Some f))))
       = Some (template_id t)).
Proof.
  assert (selectedTemplate (home (run (boot ls) was)) = None) as Hnone
    by (apply run_no_local_file; reflexivity).
  split; [exact Hnone|]. split.
  - unfold active_sources. rewrite Hnone.
    destruct (truthy_opt _); simpl; lia.
  - split.
    + intros σ w t. split; reflexivity.
    + intros σ w f t Hup. rewrite (step_PickFile_ok _ _ _ _ Hup).
      split; reflexivity.
Qed.

Lemma C4_at_most_one_source_witness :
  selectedTemplate
    (home (step sample_session (online, PickFile (Some sample_file)))) = None /\
  selectedTemplateId
    (home (step sample_session (online, PickFile (Some sample_file))))
    = Some (lit "t9").
Proof.
  destruct (C4_at_most_one_source ∅ []) as (_ & _ & _ & H).
  apply (H sample_session online sample_file sample_template).
  reflexivity.
Defined.

(** C4 as the spec words it fails: the one way to choose a local file is
    the file input, whose handler uploads the file.  With the sample
    template selected, picking a file does not clear the saved-template
    selection, whether the upload fails or succeeds, and the file does not
    become the selection. *)
Lemma C4_local_file_counterexample :
  selectedTemplateId (home sample_session) = Some (lit "t9") /\
  ~ (selectedTemplateId
       (home (step sample_session (offline, PickFile (Some sample_file))))
     = None) /\
  ~ (selectedTemplateId
       (home (step sample_session (online, PickFile (Some sample_file))))
     = None) /\
  ~ (selectedTemplate
       (home (step sample_session (online, PickFile (Some sample_file))))
     = Some sample_file).
Proof.
  split; [vm_compute; reflexivity|].
  repeat split; vm_compute; discriminate.
Qed.

(** *** The template asset of a submission *)

(** Where an event sits in a trace that was extended. *)
Lemma split_extended (old new pre post : list Event) ev :
  old ++ new = pre ++ ev :: post ->
  (exists post', old = pre ++ ev :: post' /\ post = post' ++ new) \/
  (exists pre', pre = old ++ pre' /\ new = pre' ++ ev :: post).
Proof.
  intros H. apply app_eq_app in H as (l & [(Hold & Hnew) | (Hpre & Hnew)]).
  - destruct l as [|ev' l].
    + right. exists []. rewrite app_nil_r in *. simpl in *.
      split; congruence.
    + injection Hnew as <- ->. left. exists l. split; [assumption | reflexivity].
  - right. exists l. split; assumption.
Qed.

Lemma not_initialized tr pre post ty c tf r :
  initializations tr = [] ->
  tr <> pre ++ EvInitializeProject ty c tf r :: post.
Proof.
  intros Hnone ->. rewrite initializations_app in Hnone. simpl in Hnone.
  destruct (initializations pre); discriminate.
Qed.

Lemma fresh_assets_other old new :
  fresh_assets old -> initializations new = [] -> fresh_assets (old ++ new).
Proof.
  intros Hold Hnew ty c tf r pre post Heq.
  apply split_extended in Heq
    as [(post' & Heq & _) | (pre' & _ & Heq)].
  - exact (Hold _ _ _ _ _ _ Heq).
  - exfalso. exact (not_initialized _ _ _ _ _ _ _ Hnew Heq).
Qed.

Lemma fresh_assets_submission w s ls ls' old new :
  fresh_assets old ->
  selectedTemplate s = None ->
  Submission w s ls ls' new ->
  fresh_assets (old ++ new).
Proof.
  intros Hold Hsel Hsub.
  destruct Hsub as [Hblank | tf0 tr1 cc ls' tr2 Hvalid Hres Hroute].
  { apply fresh_assets_other; [assumption | reflexivity]. }
  intros ty c tf r pre post Heq.
  apply split_extended in Heq
    as [(post' & Heq & _) | (pre' & -> & Heq)].
  { exact (Hold _ _ _ _ _ _ Heq). }
  apply split_extended in Heq
    as [(post' & Heq & _) | (pre'' & -> & Heq)].
  { exfalso. destruct (Resolution_silent _ _ _ _ Hres) as (Hnone & _).
    exact (not_initialized _ _ _ _ _ _ _ Hnone Heq). }
  assert (pre'' = [] /\ tf = tf0) as (-> & ->).
  { destruct Hroute, pre'' as [|e1 [|e2 [|e3 pre'']]]; simpl in Heq;
      try discriminate; injection Heq; intros; subst;
      try discriminate; split; reflexivity. }
  rewrite app_nil_r.
  destruct Hres as [_ | | | | t resp b _ _ _ _ _];
    try (left; assumption); try (left; reflexivity).
  right. exists (getImageUrl w (template_image_url t)), resp, b, old.
  split; reflexivity.
Qed.

Lemma run_fresh_assets ls was : fresh_assets (events (run (boot ls) was)).
Proof.
  induction was as [|[w a] was IH] using rev_ind.
  - intros ty c tf r pre post Heq. simpl in Heq.
    destruct pre; discriminate.
  - rewrite run_snoc.
    assert ({a = ClickSubmit} + {a <> ClickSubmit}) as [-> | Hneq]
      by (destruct a; (left; reflexivity) || (right; discriminate)).
    + destruct (step_ClickSubmit (run (boot ls) was) w)
        as (ls' & tr & -> & Hsub).
      simpl. eapply fresh_assets_submission; [exact IH | | exact Hsub].
      apply run_no_local_file. reflexivity.
    + destruct (step_other (run (boot ls) was) w a Hneq)
        as (h & tr & -> & Hnone & _).
      simpl. apply fresh_assets_other; assumption.
Qed.

(** C10: no action sets the local-file selection to a file (after any
    action, from any state, it is null or what it was), so in every session
    it is null; and every template asset passed to the Project Service in a
    session is absent, or is the asset made of a body that was fetched and
    read right before the call: never a file held by the component. *)
Theorem C10_local_file_unreachable (ls : Storage) (was : list (World * Action)) :
  (forall σ wa,
     selectedTemplate (home (step σ wa)) = None \/
     selectedTemplate (home (step σ wa)) = selectedTemplate (home σ)) /\
  selectedTemplate (home (run (boot ls) was)) = None /\
  forall ty c tf r pre post,
    events (run (boot ls) was) = pre ++ EvInitializeProject ty c tf r :: post ->
    tf = None \/
    exists url resp b pre',
      pre = pre' ++ [EvFetch url (Returns resp); EvBlob (Returns b)] /\
      tf = Some {| file_bits := blob_bytes b;
                   file_name := lit "template.png";
                   file_type := blob_type b |}.
Proof.
  split; [exact step_no_local_file|]. split.
  - apply run_no_local_file. reflexivity.
  - exact (run_fresh_assets ls was).
Qed.

Lemma C10_local_file_unreachable_witness :
  Some (asset_of_blob sample_blob) = None \/
  exists url resp b pre',
    [EvListUserTemplates (Returns (Some [sample_template]));
     EvFetch (lit "http://localhost:5000/files/user-templates/t9/template.jpg")
       (Returns {| response_blob := Returns sample_blob |});
     EvBlob (Returns sample_blob)]
    = pre' ++ [EvFetch url (Returns resp); EvBlob (Returns b)] /\
    Some (asset_of_blob sample_blob)
    = Some {| file_bits := blob_bytes b;
              file_name := lit "template.png";
              file_type := blob_type b |}.
Proof.
  destruct (C10_local_file_unreachable ∅
              [(online, Mount);
               (online, ClickTemplate sample_template);
               (online, EditContent (lit "AI history talk"));
               (online, ClickSubmit)]) as (_ & _ & H).
  apply (H idea (lit "AI history talk") _
           (Returns (<[lit "currentProjectId" := lit "p123"]> ∅)) _
           [EvNavigate (lit "/project/p123/outline")]).
  vm_compute. reflexivity.
Defined.

(* ===================================================================== *)
(** ** More on submissions *)
(* ===================================================================== *)

(** The Project Service call of a submission splits its trace into the
    events of template resolution, before, and those of routing, after. *)
Lemma Submission_split w s ls ls' tr pre post ty c tf r :
  Submission w s ls ls' tr ->
  tr = pre ++ EvInitializeProject ty c tf r :: post ->
  exists cc tr2,
    Resolution w s tf pre /\ Routing w s tf ls cc ls' tr2 /\
    tr2 ++ caught cc = EvInitializeProject ty c tf r :: post.
Proof.
  intros Hsub Heq.
  destruct Hsub as [Hblank | tf0 tr1 cc ls' tr2 Hvalid Hres Hroute].
  { destruct pre as [|? [|? ?]]; discriminate. }
  change (tr1 ++ tr2 ++ caught cc) with (tr1 ++ (tr2 ++ caught cc)) in Heq.
  apply split_extended in Heq as [(post' & Heq & _) | (pre' & -> & Heq)].
  { exfalso. destruct (Resolution_silent _ _ _ _ Hres) as (Hnone & _).
    exact (not_initialized _ _ _ _ _ _ _ Hnone Heq). }
  assert (pre' = [] /\ tf = tf0) as (-> & ->).
  { destruct Hroute, pre' as [|e1 [|e2 [|e3 pre']]]; simpl in Heq;
      try discriminate; injection Heq; intros; subst;
      try discriminate; split; reflexivity. }
  rewrite app_nil_r. exists cc, tr2. repeat split; assumption.
Qed.

Lemma Resolution_fetches w s tf tr :
  Resolution w s tf tr -> (length (fetches tr) <= 1)%nat.
Proof. intros H. destruct H; simpl; lia. Qed.

Lemma Resolution_local w s tf tr f :
  Resolution w s tf tr -> selectedTemplate s = Some f ->
  tf = Some f /\ tr = [].
Proof.
  intros H Hsel. destruct H; try congruence. split; [assumption | reflexivity].
Qed.

Lemma Resolution_unselected w s tf tr :
  Resolution w s tf tr ->
  selectedTemplate s = None ->
  truthy_opt (selectedTemplateId s) = false ->
  tf = None /\ tr = [].
Proof.
  intros H Hsel Hid. destruct H; try congruence. split; [assumption | reflexivity].
Qed.

(** X1: [handleSubmit] never throws, whatever its collaborators do, and never
    changes the component's state: the content, the tab and the selection
    survive every submission, accepted or not. *)
Theorem submit_keeps_the_form (w : World) (s : HomeState) (σ : Sigma) :
  (handleSubmit w s σ).1 = Returns tt /\
  home (handleSubmit w s σ).2 = home σ /\
  home (step σ (w, ClickSubmit)) = home σ.
Proof.
  destruct (handleSubmit_spec w s σ) as (ls' & tr & Hrun & _).
  destruct (step_ClickSubmit σ w) as (ls2 & tr2 & Hstep & _).
  rewrite Hrun, Hstep. repeat split.
Qed.

(** X2: nothing is retried: a submission fetches at most one image, calls the
    Project Service at most once, navigates at most once and shows at most
    one toast; and it never both navigates and shows a toast. *)
Theorem submit_does_everything_once (w : World) (s : HomeState) (ls : Storage) :
  (length (fetches (events (exec (handleSubmit w s) s ls).2)) <= 1)%nat /\
  (length (initializations (events (exec (handleSubmit w s) s ls).2)) <= 1)%nat /\
  (length (navigations (events (exec (handleSubmit w s) s ls).2))
   + length (toasts (events (exec (handleSubmit w s) s ls).2)) <= 1)%nat.
Proof.
  destruct (exec_handleSubmit w s ls) as (ls1 & tr & -> & Hsub). simpl.
  destruct Hsub as [Hblank | tf tr1 cc ls' tr2 Hvalid Hres Hroute].
  { simpl. lia. }
  rewrite !fetches_app, !initializations_app, !navigations_app, !toasts_app.
  destruct (Resolution_silent _ _ _ _ Hres) as (-> & -> & ->).
  destruct (caught_silent cc) as (-> & -> & -> & ->).
  pose proof (Resolution_fetches _ _ _ _ Hres) as Hf.
  destruct (Routing_initializations _ _ _ _ _ _ _ Hroute) as (-> & ->).
  rewrite !app_nil_r. simpl.
  split; [lia|]. split; [lia|].
  destruct Hroute; simpl; lia.
Qed.

(** X3: template resolution is over before the Project Service is called, and
    the outcome is reported after: around the call, nothing is fetched
    later, and nothing is shown or navigated to earlier. *)
Theorem submit_stages_in_order (w : World) (s : HomeState) (ls : Storage)
    (pre post : list Event) (ty : CreationType) (c : jsstring)
    (tf : option File) (r : Completion Storage) :
  events (exec (handleSubmit w s) s ls).2
    = pre ++ EvInitializeProject ty c tf r :: post ->
  fetches post = [] /\ initializations post = [] /\
  initializations pre = [] /\ navigations pre = [] /\ toasts pre = [].
Proof.
  destruct (exec_handleSubmit w s ls) as (ls1 & tr & -> & Hsub). simpl.
  intros Heq.
  destruct (Submission_split _ _ _ _ _ _ _ _ _ _ _ Hsub Heq)
    as (cc & tr2 & Hres & Hroute & Hpost).
  destruct (Resolution_silent _ _ _ _ Hres) as (-> & -> & ->).
  assert (fetches post = [] /\ initializations post = []) as (-> & ->).
  { destruct Hroute; simpl in Hpost; injection Hpost; intros; subst;
      split; reflexivity. }
  repeat split.
Qed.

Lemma submit_stages_in_order_witness :
  fetches [EvNavigate (lit "/project/p123/outline")] = [] /\
  initializations [EvNavigate (lit "/project/p123/outline")] = [] /\
  initializations
    [EvFetch (lit "http://localhost:5000/files/user-templates/t9/template.jpg")
       (Returns {| response_blob := Returns sample_blob |});
     EvBlob (Returns sample_blob)] = [] /\
  navigations
    [EvFetch (lit "http://localhost:5000/files/user-templates/t9/template.jpg")
       (Returns {| response_blob := Returns sample_blob |});
     EvBlob (Returns sample_blob)] = [] /\
  toasts
    [EvFetch (lit "http://localhost:5000/files/user-templates/t9/template.jpg")
       (Returns {| response_blob := Returns sample_blob |});
     EvBlob (Returns sample_blob)] = [].
Proof.
  apply (submit_stages_in_order online
           (sample_state idea (lit "AI history talk")) ∅ _ _
           idea (lit "AI history talk") (Some (asset_of_blob sample_blob))
           (Returns (<[lit "currentProjectId" := lit "p123"]> ∅))).
  vm_compute. reflexivity.
Defined.

(** X4: when the Project Service throws, the component logs the exception and
    stops: it shows no toast of its own, does not navigate, and writes
    nothing to the storage, which is as the store left it. *)
Theorem submit_project_service_throws (w : World) (s : HomeState) (ls : Storage)
    (ty : CreationType) (c : jsstring) (tf : option File) (e : JsValue) :
  In (EvInitializeProject ty c tf (Throws e))
     (events (exec (handleSubmit w s) s ls).2) ->
  (exists pre,
     events (exec (handleSubmit w s) s ls).2
       = pre ++ [EvInitializeProject ty c tf (Throws e);
                 EvConsoleError log_create_failed e]) /\
  toasts (events (exec (handleSubmit w s) s ls).2) = [] /\
  navigations (events (exec (handleSubmit w s) s ls).2) = [] /\
  localStorage (exec (handleSubmit w s) s ls).2
    = initializeProject_leaves w ty c tf ls.
Proof.
  destruct (exec_handleSubmit w s ls) as (ls1 & tr & -> & Hsub). simpl.
  intros Hin. apply in_split in Hin as (pre & post & Heq).
  destruct (Submission_split _ _ _ _ _ _ _ _ _ _ _ Hsub Heq)
    as (cc & tr2 & Hres & Hroute & Hpost).
  destruct (Resolution_silent _ _ _ _ Hres) as (_ & Hn & Ht).
  subst tr. rewrite toasts_app, navigations_app, Hn, Ht.
  destruct Hroute; simpl in Hpost; injection Hpost; intros; subst;
    try discriminate.
  simpl. repeat split. exists pre. reflexivity.
Qed.

Lemma submit_project_service_throws_witness :
  toasts
    (events (exec (handleSubmit refusing (sample_state idea (lit "AI history talk")))
               (sample_state idea (lit "AI history talk")) ∅).2) = [] /\
  navigations
    (events (exec (handleSubmit refusing (sample_state idea (lit "AI history talk")))
               (sample_state idea (lit "AI history talk")) ∅).2) = [] /\
  localStorage
    (exec (handleSubmit refusing (sample_state idea (lit "AI history talk")))
       (sample_state idea (lit "AI history talk")) ∅).2
  = <[lit "currentProjectId" := lit "p000"]> ∅.
Proof.
  destruct (submit_project_service_throws refusing
              (sample_state idea (lit "AI history talk")) ∅
              idea (lit "AI history talk") (Some (asset_of_blob sample_blob))
              (js_object quota_error)) as (_ & Ht & Hn & Hls).
  - vm_compute. auto 10.
  - split; [assumption|]. split; assumption.
Defined.

Lemma assets_app tr1 tr2 : assets (tr1 ++ tr2) = assets tr1 ++ assets tr2.
Proof. apply omap_app. Qed.

(** The asset and the fetches of a submission whose content is valid are
    those of its template resolution. *)
Lemma Submission_resolution w s ls ls' tr :
  Submission w s ls ls' tr ->
  trim (content s) <> [] ->
  exists tf tr1,
    Resolution w s tf tr1 /\ assets tr = [tf] /\ fetches tr = fetches tr1.
Proof.
  intros H Hvalid. destruct H as [Hblank | tf tr1 c ls' tr2 _ Hres Hroute].
  { contradiction. }
  exists tf, tr1. split; [assumption|].
  rewrite !assets_app, !fetches_app.
  assert (assets tr1 = []) as -> by (destruct Hres; reflexivity).
  assert (assets tr2 = [tf] /\ fetches tr2 = []) as (-> & ->)
    by (destruct Hroute; split; reflexivity).
  assert (assets (caught c) = [] /\ fetches (caught c) = []) as (-> & ->)
    by (destruct c; split; reflexivity).
  rewrite !app_nil_r. split; reflexivity.
Qed.

(** When the record of the selected template is in the snapshot, its image
    is what resolution fetches, whether the fetch succeeds or not. *)
Lemma Resolution_found w s tf tr t :
  Resolution w s tf tr ->
  selectedTemplate s = None ->
  truthy_opt (selectedTemplateId s) = true ->
  List.find (fun t => bool_decide (Some (template_id t) = selectedTemplateId s))
    (userTemplates s) = Some t ->
  fetches tr =
    [(getImageUrl w (template_image_url t),
      fetch w (getImageUrl w (template_image_url t)))].
Proof.
  intros H Hsel Hid Hfind.
  destruct H as [Hguard | | t0 e _ _ Hf He | t0 resp e _ _ Hf Hr _
                 | t0 resp b _ _ Hf Hr _].
  - rewrite Hid, Hsel in Hguard. discriminate.
  - congruence.
  - assert (t0 = t) as -> by congruence. simpl. rewrite He. reflexivity.
  - assert (t0 = t) as -> by congruence. simpl. rewrite Hr. reflexivity.
  - assert (t0 = t) as -> by congruence. simpl. rewrite Hr. reflexivity.
Qed.

(** X5: a local file held by the render wins over a selected saved template:
    it is passed to the Project Service as it is, and nothing is
    fetched. *)
Theorem submit_local_file_first (w : World) (s : HomeState) (ls : Storage)
    (f : File) :
  trim (content s) <> [] ->
  selectedTemplate s = Some f ->
  fetches (events (exec (handleSubmit w s) s ls).2) = [] /\
  assets (events (exec (handleSubmit w s) s ls).2) = [Some f].
Proof.
  intros Hvalid Hsel.
  destruct (exec_handleSubmit w s ls) as (ls1 & tr & -> & Hsub). simpl.
  destruct (Submission_resolution _ _ _ _ _ Hsub Hvalid)
    as (tf & tr1 & Hres & -> & ->).
  destruct (Resolution_local _ _ _ _ _ Hres Hsel) as (-> & ->).
  split; reflexivity.
Qed.

Lemma submit_local_file_first_witness :
  fetches (events (exec (handleSubmit online local_file_state)
                     local_file_state ∅).2) = [] /\
  assets (events (exec (handleSubmit online local_file_state)
                    local_file_state ∅).2) = [Some sample_file].
Proof.
  apply (submit_local_file_first online local_file_state ∅ sample_file).
  - discriminate.
  - reflexivity.
Defined.

(** X6: with no local file and no saved template selected (the id is null or
    the empty string), a valid submission fetches nothing and passes no
    asset. *)
Theorem submit_without_template (w : World) (s : HomeState) (ls : Storage) :
  trim (content s) <> [] ->
  selectedTemplate s = None ->
  truthy_opt (selectedTemplateId s) = false ->
  fetches (events (exec (handleSubmit w s) s ls).2) = [] /\
  assets (events (exec (handleSubmit w s) s ls).2) = [None].
Proof.
  intros Hvalid Hsel Hid.
  destruct (exec_handleSubmit w s ls) as (ls1 & tr & -> & Hsub). simpl.
  destruct (Submission_resolution _ _ _ _ _ Hsub Hvalid)
    as (tf & tr1 & Hres & -> & ->).
  destruct (Resolution_unselected _ _ _ _ Hres Hsel Hid) as (-> & ->).
  split; reflexivity.
Qed.

Lemma submit_without_template_witness :
  assets
    (events
       (exec (handleSubmit online
                (home (step (boot ∅) (online, EditContent (lit "AI history talk")))))
          (home (step (boot ∅) (online, EditContent (lit "AI history talk")))) ∅).2)
  = [None].
Proof.
  apply (submit_without_template online
           (home (step (boot ∅) (online, EditContent (lit "AI history talk")))) ∅).
  - discriminate.
  - reflexivity.
  - reflexivity.
Defined.

(** X7: removing the template really removes it: from any state, even one
    that holds a local file, a valid submission right after the remove
    button fetches nothing and passes no asset. *)
Theorem remove_then_submit (w w' : World) (σ : Sigma) (ls : Storage) :
  trim (content (home σ)) <> [] ->
  fetches
    (events (exec (handleSubmit w' (home (step σ (w, ClickRemove))))
               (home (step σ (w, ClickRemove))) ls).2) = [] /\
  assets
    (events (exec (handleSubmit w' (home (step σ (w, ClickRemove))))
               (home (step σ (w, ClickRemove))) ls).2) = [None].
Proof.
  intros Hvalid.
  destruct (exec_handleSubmit w' (home (step σ (w, ClickRemove))) ls)
    as (ls1 & tr & -> & Hsub). simpl.
  destruct (Submission_resolution _ _ _ _ _ Hsub Hvalid)
    as (tf & tr1 & Hres & -> & ->).
  destruct (Resolution_unselected _ _ _ _ Hres eq_refl eq_refl) as (-> & ->).
  split; reflexivity.
Qed.

Lemma remove_then_submit_witness :
  assets
    (events
       (exec (handleSubmit online
                (home (step {| home := local_file_state; localStorage := ∅;
                               events := [] |} (online, ClickRemove))))
          (home (step {| home := local_file_state; localStorage := ∅;
                         events := [] |} (online, ClickRemove))) ∅).2)
  = [None].
Proof.
  apply (remove_then_submit online online
           {| home := local_file_state; localStorage := ∅; events := [] |} ∅).
  discriminate.
Defined.

(** X8: upload, then submit: the image fetched for the submission is the one
    of the record that the upload returned, whatever else the snapshot
    holds. *)
Theorem upload_then_submit (w w' : World) (σ : Sigma) (ls : Storage)
    (f : File) (t : UserTemplate) :
  uploadUserTemplate w f = Returns (Some t) ->
  template_id t <> [] ->
  trim (content (home σ)) <> [] ->
  fetches
    (events (exec (handleSubmit w' (home (step σ (w, PickFile (Some f)))))
               (home (step σ (w, PickFile (Some f)))) ls).2)
  = [(getImageUrl w' (template_image_url t),
      fetch w' (getImageUrl w' (template_image_url t)))].
Proof.
  intros Hup Hid Hvalid.
  rewrite (step_PickFile_ok _ _ _ _ Hup). simpl.
  match goal with |- context [exec (handleSubmit w' ?h) ?h ls] => set (s := h) end.
  destruct (exec_handleSubmit w' s ls) as (ls1 & tr & -> & Hsub). simpl.
  destruct (Submission_resolution _ _ _ _ _ Hsub Hvalid)
    as (tf & tr1 & Hres & _ & ->).
  apply (Resolution_found _ _ _ _ _ Hres).
  - reflexivity.
  - simpl. destruct (template_id t); [contradiction | reflexivity].
  - simpl. rewrite bool_decide_eq_true_2 by reflexivity. reflexivity.
Qed.

Lemma upload_then_submit_witness :
  fetches
    (events
       (exec (handleSubmit offline
                (home (step (step sample_session
                               (online, EditContent (lit "AI history talk")))
                         (naming, PickFile (Some sample_file)))))
          (home (step (step sample_session
                         (online, EditContent (lit "AI history talk")))
                   (naming, PickFile (Some sample_file)))) ∅).2)
  = [(lit "http://localhost:5000/files/user-templates/t7/template.webp",
      Throws network_error)].
Proof.
  apply (upload_then_submit naming offline
           (step sample_session (online, EditContent (lit "AI history talk")))
           ∅ sample_file named_template).
  - reflexivity.
  - discriminate.
  - discriminate.
Defined.

(* ===================================================================== *)
(** ** More on the catalog and on sessions *)
(* ===================================================================== *)

Lemma step_Mount σ w :
  step σ (w, Mount) =
  {| home :=
       {| activeTab := activeTab (home σ);
          content := content (home σ);
          selectedTemplate := selectedTemplate (home σ);
          selectedTemplateId := selectedTemplateId (home σ);
          userTemplates :=
            match listUserTemplates w with
            | Returns (Some templates) => templates
            | _ => userTemplates (home σ)
            end;
          isLoadingTemplates := false |};
     localStorage := localStorage σ;
     events :=
       events σ ++
       EvListUserTemplates (listUserTemplates w) ::
       match listUserTemplates w with
       | Throws e => [EvConsoleError log_load_failed e]
       | Returns _ => []
       end |}.
Proof.
  unfold step. cbn [fst snd handler].
  unfold loadUserTemplates, try_finally, try_catch.
  rewrite run_bind. unfold setIsLoadingTemplates at 1, setState.
  cbn beta iota. rewrite run_bind, run_list.
  destruct (listUserTemplates w) as [[l|]|e]; simpl;
    try rewrite <- app_assoc; reflexivity.
Qed.

(** The answer of a pending catalog call does what the second half of
    [loadUserTemplates] does. *)
Lemma step_CatalogAnswers σ w :
  step σ (w, CatalogAnswers) =
  {| home :=
       {| activeTab := activeTab (home σ);
          content := content (home σ);
          selectedTemplate := selectedTemplate (home σ);
          selectedTemplateId := selectedTemplateId (home σ);
          userTemplates :=
            match listUserTemplates w with
            | Returns (Some templates) => templates
            | _ => userTemplates (home σ)
            end;
          isLoadingTemplates := false |};
     localStorage := localStorage σ;
     events :=
       events σ ++
       EvListUserTemplates (listUserTemplates w) ::
       match listUserTemplates w with
       | Throws e => [EvConsoleError log_load_failed e]
       | Returns _ => []
       end |}.
Proof.
  unfold step. cbn [fst snd handler].
  unfold loadUserTemplates_resume, try_finally, try_catch.
  rewrite run_bind, run_list.
  destruct (listUserTemplates w) as [[l|]|e]; simpl;
    try rewrite <- app_assoc; reflexivity.
Qed.

(** The effect that is answered at once is the effect whose call is
    pending, followed by the answer. *)
Lemma Mount_is_pending_then_answered σ w w' :
  step σ (w, Mount) = run σ [(w', MountPending); (w, CatalogAnswers)].
Proof.
  unfold run. simpl. rewrite step_Mount, step_CatalogAnswers. reflexivity.
Qed.

(** What one action does to each field of the state. *)
Lemma step_fields σ w a :
  content (home (step σ (w, a)))
    = match a with EditContent c => c | _ => content (home σ) end /\
  activeTab (home (step σ (w, a)))
    = match a with ClickTab ty => ty | _ => activeTab (home σ) end /\
  userTemplates (home (step σ (w, a)))
    = match a with
      | Mount | CatalogAnswers =>
          match listUserTemplates w with
          | Returns (Some templates) => templates
          | _ => userTemplates (home σ)
          end
      | _ =>
          match uploaded (w, a) with
          | Some t => t :: userTemplates (home σ)
          | None => userTemplates (home σ)
          end
      end /\
  selectedTemplateId (home (step σ (w, a)))
    = match a with
      | ClickTemplate t => Some (template_id t)
      | ClickRemove => None
      | _ =>
          match uploaded (w, a) with
          | Some t => Some (template_id t)
          | None => selectedTemplateId (home σ)
          end
      end /\
  isLoadingTemplates (home (step σ (w, a)))
    = match a with
      | Mount | CatalogAnswers => false
      | MountPending => true
      | _ => isLoadingTemplates (home σ)
      end.
Proof.
  destruct a as [| ty | c | [f|] | t | | | | |]; unfold uploaded; cbn [fst snd].
  - rewrite step_Mount. repeat split.
  - repeat split.
  - repeat split.
  - destruct (uploadUserTemplate w f) as [[t|]|e] eqn:Hup.
    + rewrite (step_PickFile_ok _ _ _ _ Hup). repeat split.
    + rewrite (step_PickFile_no_data _ _ _ Hup). repeat split.
    + rewrite (step_PickFile_failed _ _ _ _ Hup). repeat split.
  - rewrite step_PickFile_none. repeat split.
  - repeat split.
  - repeat split.
  - destruct (step_ClickSubmit σ w) as (ls' & tr & -> & _). repeat split.
  - repeat split.
  - repeat split.
  - rewrite step_CatalogAnswers. repeat split.
Qed.

(** X10: loading the catalog is silent and touches only the snapshot: it shows
    no toast, whatever the catalog answers; it leaves the content, the tab,
    the selection and the storage alone; it ends with the loading flag
    down, also when the call throws; and the snapshot becomes the list
    returned, or stays as it was when the call throws or when the answer
    carries no list. *)
Theorem load_catalog_is_silent (w : World) (σ : Sigma) :
  toasts (events (step σ (w, Mount))) = toasts (events σ) /\
  isLoadingTemplates (home (step σ (w, Mount))) = false /\
  userTemplates (home (step σ (w, Mount)))
    = match listUserTemplates w with
      | Returns (Some templates) => templates
      | _ => userTemplates (home σ)
      end /\
  content (home (step σ (w, Mount))) = content (home σ) /\
  activeTab (home (step σ (w, Mount))) = activeTab (home σ) /\
  selectedTemplateId (home (step σ (w, Mount))) = selectedTemplateId (home σ) /\
  selectedTemplate (home (step σ (w, Mount))) = selectedTemplate (home σ) /\
  localStorage (step σ (w, Mount)) = localStorage σ.
Proof.
  rewrite step_Mount. simpl. rewrite toasts_app.
  assert (toasts (EvListUserTemplates (listUserTemplates w)
                  :: match listUserTemplates w with
                     | Throws e => [EvConsoleError log_load_failed e]
                     | Returns _ => []
                     end) = []) as ->
    by (destruct (listUserTemplates w); reflexivity).
  rewrite app_nil_r. repeat split.
Qed.

(** X11: a cancelled file dialog does nothing at all; and an upload that is
    answered without data changes nothing in the component and shows no
    toast, neither of success nor of failure: the call is the only
    event. *)
Theorem upload_without_data_is_silent (w : World) (σ : Sigma) :
  step σ (w, PickFile None) = σ /\
  forall f,
    uploadUserTemplate w f = Returns None ->
    home (step σ (w, PickFile (Some f))) = home σ /\
    localStorage (step σ (w, PickFile (Some f))) = localStorage σ /\
    events (step σ (w, PickFile (Some f)))
      = events σ ++ [EvUploadUserTemplate f (Returns None)].
Proof.
  split; [apply step_PickFile_none|].
  intros f Hup. rewrite (step_PickFile_no_data _ _ _ Hup). repeat split.
Qed.

Lemma upload_without_data_is_silent_witness :
  home (step sample_session (dataless, PickFile (Some sample_file)))
    = home sample_session /\
  toasts (events (step sample_session (dataless, PickFile (Some sample_file))))
    = [].
Proof.
  destruct (upload_without_data_is_silent dataless sample_session) as (_ & H).
  destruct (H sample_file eq_refl) as (Hh & _ & He).
  split; [exact Hh|]. rewrite He. reflexivity.
Defined.

(** X12: after a successful upload the banner names the uploaded record: its
    name, or the default text when it has none or an empty one; and the
    banner is shown exactly when the id of the record is not empty. *)
Theorem banner_after_upload (w : World) (σ : Sigma) (f : File)
    (t : UserTemplate) :
  uploadUserTemplate w f = Returns (Some t) ->
  bannerName (home (step σ (w, PickFile (Some f))))
    = or_else (name t) msg_unnamed /\
  bannerShown (home (step σ (w, PickFile (Some f)))) = truthy (template_id t).
Proof.
  intros Hup. rewrite (step_PickFile_ok _ _ _ _ Hup).
  unfold bannerName, bannerShown. simpl.
  rewrite bool_decide_eq_true_2 by reflexivity. split; reflexivity.
Qed.

Lemma banner_after_upload_witness :
  bannerName (home (step sample_session (naming, PickFile (Some sample_file))))
    = lit "Ocean" /\
  bannerName (home (step sample_session (online, PickFile (Some sample_file))))
    = msg_unnamed.
Proof.
  split.
  - apply (banner_after_upload naming sample_session sample_file named_template).
    reflexivity.
  - apply (banner_after_upload online sample_session sample_file sample_template).
    reflexivity.
Defined.

Lemma run_cons σ wa was : run σ (wa :: was) = run (step σ wa) was.
Proof. reflexivity. Qed.

Lemma last_cons {A} (a d : A) (l : list A) : List.last (a :: l) d = List.last l a.
Proof.
  revert a d. induction l as [|b l IH]; intros a d; [reflexivity|].
  change (List.last (a :: b :: l) d) with (List.last (b :: l) d).
  rewrite (IH b d), (IH b a). reflexivity.
Qed.

(** X13: the content is always what was typed last, and the tab the one that
    was clicked last: no other action, a tab switch, an upload, a
    submission, clears or changes the content, and none but a tab click
    changes the tab. *)
Theorem content_is_last_edit (σ : Sigma) (was : list (World * Action)) :
  content (home (run σ was)) = List.last (edits was) (content (home σ)) /\
  activeTab (home (run σ was)) = List.last (tabs was) (activeTab (home σ)).
Proof.
  revert σ. induction was as [|[w a] was IH]; intros σ.
  { split; reflexivity. }
  rewrite run_cons. destruct (IH (step σ (w, a))) as (-> & ->).
  destruct (step_fields σ w a) as (-> & -> & _).
  assert (edits ((w, a) :: was)
          = match a with EditContent c => c :: edits was | _ => edits was end)
    as -> by (destruct a; reflexivity).
  assert (tabs ((w, a) :: was)
          = match a with ClickTab ty => ty :: tabs was | _ => tabs was end)
    as -> by (destruct a; reflexivity).
  destruct a; rewrite ?last_cons; split; reflexivity.
Qed.




(** X15: after the catalog is loaded (no effect of line 31 and no answer of
    its call in the session), the snapshot is the records of the
    successful uploads, most recent first, in front of what it was: nothing
    else adds, removes or reorders records. *)
Theorem snapshot_is_uploads (σ : Sigma) (was : list (World * Action)) :
  Forall (fun wa => wa.2 <> Mount /\ wa.2 <> CatalogAnswers) was ->
  userTemplates (home (run σ was))
    = rev (omap uploaded was) ++ userTemplates (home σ).
Proof.
  intros Hall. revert σ.
  induction Hall as [|[w a] was Hhead _ IH]; intros σ.
  { reflexivity. }
  rewrite run_cons, IH.
  destruct (step_fields σ w a) as (_ & _ & -> & _).
  simpl in Hhead. destruct Hhead as (Hmount & Hanswer). simpl.
  destruct a; try contradiction;
    destruct (uploaded _) as [t|]; simpl;
    rewrite <- ?app_assoc; reflexivity.
Qed.

Lemma snapshot_is_uploads_witness :
  userTemplates
    (home (run (step (boot ∅) (online, Mount))
             [(naming, PickFile (Some sample_file));
              (offline, PickFile (Some sample_file));
              (online, ClickRemove);
              (online, PickFile (Some sample_file))]))
  = [sample_template; named_template; sample_template].
Proof.
  apply (snapshot_is_uploads (step (boot ∅) (online, Mount))
           [(naming, PickFile (Some sample_file));
            (offline, PickFile (Some sample_file));
            (online, ClickRemove);
            (online, PickFile (Some sample_file))]).
  repeat constructor; discriminate.
Defined.

(** One offered action keeps the selected id among the records of the
    snapshot, and keeps the snapshot and the selection empty while the
    catalog call is pending. *)
Lemma step_selection_in_snapshot σ w a :
  enabled (home σ) a ->
  selection_in_snapshot (home σ) /\ nothing_while_loading (home σ) ->
  selection_in_snapshot (home (step σ (w, a))) /\
  nothing_while_loading (home (step σ (w, a))).
Proof.
  intros Hen (Hinv & Hload).
  unfold selection_in_snapshot, nothing_while_loading in *.
  destruct (step_fields σ w a) as (_ & _ & -> & -> & ->).
  destruct a as [| ty | c | [f|] | t | | | | |]; simpl in *;
    try contradiction; try (split; assumption).
  - (* an upload: the file input is enabled, the catalog is not loading *)
    unfold uploaded. simpl. rewrite Hen.
    split; [|discriminate].
    destruct (uploadUserTemplate w f) as [[t|]|e].
    + right. exists t. split; [left; reflexivity | reflexivity].
    + exact Hinv.
    + exact Hinv.
  - (* a card: there is none while the catalog is loading *)
    split.
    + right. exists t. split; [exact Hen | reflexivity].
    + intros Hl. destruct (Hload Hl) as (Hnil & _).
      rewrite Hnil in Hen. destruct Hen.
  - (* the remove button *)
    split; [left; reflexivity|].
    intros Hl. destruct (Hload Hl) as (Hnil & _). split; [exact Hnil | reflexivity].
  - (* the answer of the catalog: nothing was selected *)
    destruct (Hload Hen) as (_ & Hnone).
    split; [left; exact Hnone | discriminate].
Qed.

Lemma run_selection_in_snapshot σ was :
  selection_in_snapshot (home σ) /\ nothing_while_loading (home σ) ->
  offered σ was ->
  selection_in_snapshot (home (run σ was)) /\
  nothing_while_loading (home (run σ was)).
Proof.
  revert σ. induction was as [|[w a] was IH]; intros σ Hinv Hoff.
  { exact Hinv. }
  destruct Hoff as (Hen & Hoff). rewrite run_cons.
  apply IH; [|exact Hoff].
  apply step_selection_in_snapshot; assumption.
Qed.

Lemma mounting_starts_empty w ls :
  selection_in_snapshot (home (mounting w ls)) /\
  nothing_while_loading (home (mounting w ls)) /\
  selectedTemplate (home (mounting w ls)) = None.
Proof.
  split; [left; reflexivity|]. split; [|reflexivity].
  intros _. split; reflexivity.
Qed.

(** A session of the component whose catalog call was answered at once
    is a session from the start of the effect in which the answer comes
    first. *)
Lemma answered_at_once w ls was :
  offered (step (boot ls) (w, Mount)) was ->
  offered (mounting w ls) ((w, CatalogAnswers) :: was) /\
  run (mounting w ls) ((w, CatalogAnswers) :: was)
    = run (step (boot ls) (w, Mount)) was.
Proof.
  intros Hoff.
  assert (step (mounting w ls) (w, CatalogAnswers) = step (boot ls) (w, Mount))
    as Heq by (symmetry; apply (Mount_is_pending_then_answered (boot ls) w w)).
  split.
  - split; [reflexivity|]. rewrite Heq. exact Hoff.
  - rewrite run_cons, Heq. reflexivity.
Qed.

(** X16: in every session of the component, from the start of its effect, in
    which the user does what the render offers, also while the catalog call
    is pending, the selected id, when there is one, is the id of a record
    of the snapshot, and the render never holds a local file; and as long
    as the call is pending the snapshot is empty and nothing is selected
    (the file input is disabled then and there is no card to click), so
    that the answer of the catalog, which replaces the snapshot, leaves no
    selection without its record. *)
Theorem selection_names_a_record (w0 : World) (ls : Storage)
    (was : list (World * Action)) :
  offered (mounting w0 ls) was ->
  selection_in_snapshot (home (run (mounting w0 ls) was)) /\
  selectedTemplate (home (run (mounting w0 ls) was)) = None /\
  nothing_while_loading (home (run (mounting w0 ls) was)).
Proof.
  intros Hoff.
  destruct (mounting_starts_empty w0 ls) as (Hinv & Hload & Hsel).
  destruct (run_selection_in_snapshot _ _ (conj Hinv Hload) Hoff) as (H1 & H2).
  split; [exact H1|]. split; [|exact H2].
  apply run_no_local_file. exact Hsel.
Qed.

Lemma selection_names_a_record_witness :
  selection_in_snapshot
    (home (run (mounting online ∅)
             [(online, EditContent (lit "AI history talk"));
              (online, CatalogAnswers);
              (online, ClickTemplate sample_template);
              (naming, PickFile (Some sample_file));
              (online, ClickSubmit)])).
Proof.
  apply (selection_names_a_record online ∅
           [(online, EditContent (lit "AI history talk"));
            (online, CatalogAnswers);
            (online, ClickTemplate sample_template);
            (naming, PickFile (Some sample_file));
            (online, ClickSubmit)]).
  vm_compute. auto 20.
Defined.

(** The guard of the file input is what keeps this: an upload made while
    the catalog call is pending, which the render does not offer, is
    selected and then dropped from the snapshot by the answer. *)
Example upload_while_loading_loses_its_record :
  ~ offered (mounting online ∅)
      [(naming, PickFile (Some sample_file)); (online, CatalogAnswers)] /\
  ~ selection_in_snapshot
      (home (run (mounting online ∅)
               [(naming, PickFile (Some sample_file));
                (online, CatalogAnswers)])).
Proof.
  split.
  - intros (Hen & _). vm_compute in Hen. discriminate.
  - intros [Hnone | (t & Hin & Hid)].
    + vm_compute in Hnone. discriminate.
    + vm_compute in Hin. destruct Hin as [<- | []].
      vm_compute in Hid. discriminate.
Qed.

(** X17: so, for such a session, the branch of a submission in which the record
    is not found is never taken: with a valid content and a selected
    template, the submission fetches, exactly once, the image of a record
    of the snapshot. *)
Theorem offered_submit_fetches_a_record (w0 w : World) (ls0 ls : Storage)
    (was : list (World * Action)) :
  offered (mounting w0 ls0) was ->
  trim (content (home (run (mounting w0 ls0) was))) <> [] ->
  truthy_opt (selectedTemplateId (home (run (mounting w0 ls0) was))) = true ->
  exists t,
    In t (userTemplates (home (run (mounting w0 ls0) was))) /\
    fetches
      (events (exec (handleSubmit w (home (run (mounting w0 ls0) was)))
                 (home (run (mounting w0 ls0) was)) ls).2)
    = [(getImageUrl w (template_image_url t),
        fetch w (getImageUrl w (template_image_url t)))].
Proof.
  intros Hoff Hvalid Hid.
  destruct (mounting_starts_empty w0 ls0) as (Hstart & Hload & Hsel0).
  destruct (run_selection_in_snapshot _ _ (conj Hstart Hload) Hoff) as (Hinv & _).
  assert (selectedTemplate (home (run (mounting w0 ls0) was)) = None) as Hsel
    by (apply run_no_local_file; exact Hsel0).
  set (h := home (run (mounting w0 ls0) was)) in *.
  destruct Hinv as [Hnone | (t0 & Hin0 & Ht0)].
  { rewrite Hnone in Hid. discriminate. }
  destruct (List.find
              (fun t => bool_decide (Some (template_id t) = selectedTemplateId h))
              (userTemplates h)) as [t|] eqn:Hfind.
  2:{ exfalso. pose proof (find_none _ _ Hfind t0 Hin0) as Hno.
      simpl in Hno. rewrite bool_decide_eq_true_2 in Hno by congruence.
      discriminate. }
  exists t. split; [exact (proj1 (find_some _ _ Hfind))|].
  destruct (exec_handleSubmit w h ls) as (ls1 & tr & -> & Hsub). simpl.
  destruct (Submission_resolution _ _ _ _ _ Hsub Hvalid)
    as (tf & tr1 & Hres & _ & ->).
  exact (Resolution_found _ _ _ _ _ Hres Hsel Hid Hfind).
Qed.

Lemma offered_submit_fetches_a_record_witness :
  exists t,
    In t (userTemplates
            (home (run (mounting online ∅)
                     [(online, EditContent (lit "AI history talk"));
                      (online, CatalogAnswers);
                      (online, ClickTemplate sample_template)]))) /\
    fetches
      (events
         (exec (handleSubmit offline
                  (home (run (mounting online ∅)
                           [(online, EditContent (lit "AI history talk"));
                            (online, CatalogAnswers);
                            (online, ClickTemplate sample_template)])))
            (home (run (mounting online ∅)
                     [(online, EditContent (lit "AI history talk"));
                      (online, CatalogAnswers);
                      (online, ClickTemplate sample_template)])) ∅).2)
    = [(getImageUrl offline (template_image_url t),
        fetch offline (getImageUrl offline (template_image_url t)))].
Proof.
  apply (offered_submit_fetches_a_record online offline ∅ ∅
           [(online, EditContent (lit "AI history talk"));
            (online, CatalogAnswers);
            (online, ClickTemplate sample_template)]).
  - vm_compute. auto 20.
  - vm_compute. discriminate.
  - reflexivity.
Defined.

Lemma whitespace_only_rejected_witness :
  events
    (exec (handleSubmit online (sample_state outline [0x09; 0x0D; 0x0A; 0xA0; 0xFEFF]))
       (sample_state outline [0x09; 0x0D; 0x0A; 0xA0; 0xFEFF]) ∅).2
  = [EvShow toast_enter_content].
Proof.
  apply (whitespace_only_rejected online
           (sample_state outline [0x09; 0x0D; 0x0A; 0xA0; 0xFEFF]) ∅).
  repeat constructor.
Defined.

Lemma project_id_empty_witness :
  toasts
    (events (exec (handleSubmit blank_id (sample_state idea (lit "AI history talk")))
               (sample_state idea (lit "AI history talk")) ∅).2)
  = [toast_create_failed]
  /\ navigations
       (events (exec (handleSubmit blank_id (sample_state idea (lit "AI history talk")))
                  (sample_state idea (lit "AI history talk")) ∅).2)
     = [].
Proof.
  apply (project_id_empty blank_id (sample_state idea (lit "AI history talk")) ∅
           idea (lit "AI history talk") (Some (asset_of_blob sample_blob))
           (<[lit "currentProjectId" := []]> ∅)).
  - vm_compute. auto 10.
  - vm_compute. reflexivity.
Defined.
